(** * Mocktailverse: the enrichment Lambda ([src/lambda/transform.py])

    A shallow embedding of the transformation Lambda and the properties
    of its field derivers, record enricher and batch pipeline.

    Python values are modelled as decoded JSON trees, Python [float]s as
    IEEE 754 binary64 numbers ([spec_float] at precision 53), Python
    [int]s as [Z], exceptions as an error result, and the dictionaries
    that the enricher copies and assigns to as objects in a store.
    Text is ASCII: [str.lower] and [str.split] act on the ASCII letters
    and blanks. *)

From Stdlib Require Import ZArith String Ascii List Bool Lia.
From Stdlib Require Import SpecFloat.
From stdpp Require Import gmap strings list fin_maps.

Set Warnings "-register-all".
Local Open Scope Z_scope.
Local Open Scope string_scope.

(** ** Exceptions and the error monad *)

Inductive exn : Type :=
| AttributeError
| TypeError
| ValueError
| OverflowError
| ZeroDivisionError
| SystemError
| ClientError (msg : string)
| OtherError (msg : string).

Inductive result (A : Type) : Type :=
| Ok (a : A)
| Raise (e : exn).
Arguments Ok {A} a.
Arguments Raise {A} e.

Definition bind {A B : Type} (r : result A) (k : A -> result B) : result B :=
  match r with
  | Ok a => k a
  | Raise e => Raise e
  end.

Notation "'let*' x ':=' e 'in' k" := (bind e (fun x => k))
  (at level 10, x name, e at level 100, k at level 200).

(** A [for] loop that threads an accumulator and stops at the first
    exception. *)
Fixpoint for_each {A S : Type} (body : S -> A -> result S) (items : list A) (acc : S)
  : result S :=
  match items with
  | [] => Ok acc
  | x :: rest => let* acc' := body acc x in for_each body rest acc'
  end.

(** A list comprehension whose element expression may raise. *)
Fixpoint comprehension {A B : Type} (f : A -> result B) (items : list A) : result (list B) :=
  match items with
  | [] => Ok []
  | x :: rest => let* y := f x in let* ys := comprehension f rest in Ok (y :: ys)
  end.

(** ** Strings *)

Definition lower_ascii (c : ascii) : ascii :=
  let n := N_of_ascii c in
  if (65 <=? n)%N && (n <=? 90)%N then ascii_of_N (n + 32) else c.

(** [str.lower()] *)
Fixpoint lower (s : string) : string :=
  match s with
  | EmptyString => EmptyString
  | String c s' => String (lower_ascii c) (lower s')
  end.

(** [sub in s] on strings *)
Fixpoint contains (sub s : string) : bool :=
  String.prefix sub s ||
  match s with
  | EmptyString => false
  | String _ s' => contains sub s'
  end.

(** [any(k in name for k in keywords)] *)
Definition any_in (keywords : list string) (name : string) : bool :=
  existsb (fun k => contains k name) keywords.

(** [str.isspace] on ASCII, the blanks [str.split()] splits at: tab to
    carriage return, the four separators 0x1c to 0x1f and the space. *)
Definition is_space (c : ascii) : bool :=
  let n := N_of_ascii c in
  ((9 <=? n)%N && (n <=? 13)%N) || ((28 <=? n)%N && (n <=? 32)%N).

(** C's [isspace], the blanks [float()] skips around a number: tab to
    carriage return and the space, not the separators 0x1c to 0x1f. *)
Definition is_c_space (c : ascii) : bool :=
  let n := N_of_ascii c in
  ((9 <=? n)%N && (n <=? 13)%N) || (n =? 32)%N.

(** [str.split()]: the maximal runs of non-blank characters. [word] is
    the run being read. *)
Fixpoint split_from (word : string) (s : string) : list string :=
  match s with
  | EmptyString => if String.eqb word "" then [] else [word]
  | String c s' =>
      if is_space c
      then (if String.eqb word "" then split_from "" s' else word :: split_from "" s')
      else split_from (word ++ String c "") s'
  end.

Definition split (s : string) : list string := split_from "" s.

(** [s.count(c)] for a one-character [c] *)
Fixpoint count (c : ascii) (s : string) : Z :=
  match s with
  | EmptyString => 0
  | String c' s' => (if Ascii.eqb c c' then 1 else 0) + count c s'
  end.

(** [sep.join(parts)] *)
Definition join (sep : string) (parts : list string) : string := String.concat sep parts.

Fixpoint strip_left (s : string) : string :=
  match s with
  | String c s' => if is_c_space c then strip_left s' else s
  | EmptyString => EmptyString
  end.

Fixpoint rev_string (acc s : string) : string :=
  match s with
  | EmptyString => acc
  | String c s' => rev_string (String c acc) s'
  end.

(** The text without the C blanks at its two ends. *)
Definition strip (s : string) : string :=
  rev_string "" (strip_left (rev_string "" (strip_left s))).

(** ** Floats: IEEE 754 binary64 *)

Definition prec : Z := 53.
Definition emax : Z := 1024.

Abbreviation float := spec_float.

Definition fadd : float -> float -> float := SFadd prec emax.
Definition fmul : float -> float -> float := SFmul prec emax.
Definition fdiv : float -> float -> float := SFdiv prec emax.
Definition fltb : float -> float -> bool := SFltb.
Definition fleb : float -> float -> bool := SFleb.

(** The double nearest to [m * 2^e] (ties to even). *)
Definition float_of_scaled (m e : Z) : float := binary_normalize prec emax m e false.

(** The implicit [int -> float] conversion of mixed arithmetic. *)
Definition float_of_Z (z : Z) : float := float_of_scaled z 0.

Definition f_zero : float := S754_zero false.
Definition f_half : float := float_of_scaled 1 (-1).
Definition f_one : float := float_of_Z 1.
Definition f_three : float := float_of_Z 3.
Definition f_ten : float := float_of_Z 10.

Definition is_finite (f : float) : bool :=
  match f with
  | S754_zero _ | S754_finite _ _ _ => true
  | _ => false
  end.

(** [min(a, b)] on floats: Python keeps [a] unless [b < a]. *)
Definition min_float (a b : float) : float := if fltb b a then b else a.

(** The double nearest to the rational [p / q], for positive [p], [q]. *)
Definition float_of_ratio (neg : bool) (p q : positive) : float :=
  let '(m, e, l) := SFdiv_core_binary prec emax (Zpos p) 0 (Zpos q) 0 in
  binary_round_aux prec emax neg m e l.

(** [int(f)]: truncation toward zero. *)
Definition int_of_float (f : float) : result Z :=
  match f with
  | S754_nan => Raise ValueError
  | S754_infinity _ => Raise OverflowError
  | S754_zero _ => Ok 0
  | S754_finite s m e => Ok (cond_Zopp s (Z.shiftl (Zpos m) e))
  end.

(** *** [float(str)]

    [sign] ([digits] with optional fraction and exponent, or
    [inf], [infinity], [nan]), C blanks stripped on both sides;
    underscores may separate digits. *)

Definition is_digit (c : ascii) : bool :=
  let n := N_of_ascii c in (48 <=? n)%N && (n <=? 57)%N.

Definition digit_value (c : ascii) : Z := Z.of_N (N_of_ascii c) - 48.

(** The rest of a digit part: the accumulated value, the number of
    digits read and the unread text. *)
Fixpoint digits_tail (acc : Z) (n : Z) (s : string) : Z * Z * string :=
  match s with
  | String c s' =>
      if is_digit c then digits_tail (10 * acc + digit_value c) (n + 1) s'
      else if Ascii.eqb c "_" then
        match s' with
        | String d s'' =>
            if is_digit d then digits_tail (10 * acc + digit_value d) (n + 1) s''
            else (acc, n, s)
        | EmptyString => (acc, n, s)
        end
      else (acc, n, s)
  | EmptyString => (acc, n, s)
  end.

Definition digit_part (acc : Z) (s : string) : option (Z * Z * string) :=
  match s with
  | String c s' =>
      if is_digit c then Some (digits_tail (10 * acc + digit_value c) 1 s') else None
  | EmptyString => None
  end.

(** [number]: mantissa digits, count of fraction digits, unread text. *)
Definition parse_number (s : string) : option (Z * Z * string) :=
  match digit_part 0 s with
  | Some (ip, _, String "." r) =>
      match digit_part ip r with
      | Some (m, nfrac, r') => Some (m, nfrac, r')
      | None => Some (ip, 0, r)
      end
  | Some (ip, _, r) => Some (ip, 0, r)
  | None =>
      match s with
      | String "." r => digit_part 0 r
      | _ => None
      end
  end.

Definition parse_sign (s : string) : bool * string :=
  match s with
  | String "-" r => (true, r)
  | String "+" r => (false, r)
  | _ => (false, s)
  end.

(** [exponent]: absent, or [e]/[E] followed by a signed digit part that
    ends the text. *)
Definition parse_exponent (s : string) : option Z :=
  match s with
  | EmptyString => Some 0
  | String c r =>
      if Ascii.eqb (lower_ascii c) "e" then
        let '(neg, r') := parse_sign r in
        match digit_part 0 r' with
        | Some (x, _, EmptyString) => Some (if neg then - x else x)
        | _ => None
        end
      else None
  end.

(** The double nearest to [m * 10^e10]. *)
Definition float_of_decimal (neg : bool) (m e10 : Z) : float :=
  match m with
  | Zpos p =>
      if (0 <=? e10)%Z then binary_round prec emax neg (p * Z.to_pos (10 ^ e10)) 0
      else float_of_ratio neg p (Z.to_pos (10 ^ (- e10)))
  | _ => S754_zero neg
  end.

Definition float_of_string (s : string) : option float :=
  let '(neg, body) := parse_sign (strip s) in
  let word := lower body in
  if String.eqb word "inf" || String.eqb word "infinity" then Some (S754_infinity neg)
  else if String.eqb word "nan" then Some S754_nan
  else
    match parse_number body with
    | Some (m, nfrac, r) =>
        match parse_exponent r with
        | Some x => Some (float_of_decimal neg m (x - nfrac))
        | None => None
        end
    | None => None
    end.

(** ** Python values

    The values [json.loads] produces. A [dict] is a finite map from its
    string keys. *)

Inductive pyval : Type :=
| VNone
| VBool (b : bool)
| VInt (z : Z)
| VFloat (f : float)
| VStr (s : string)
| VList (items : list pyval)
| VDict (fields : gmap string pyval).

(** [o.get(key, fallback)] *)
Definition get (o : pyval) (key : string) (fallback : pyval) : result pyval :=
  match o with
  | VDict d => Ok (default fallback (d !! key))
  | _ => Raise AttributeError
  end.

(** [v.lower()] *)
Definition py_lower (v : pyval) : result string :=
  match v with
  | VStr s => Ok (lower s)
  | _ => Raise AttributeError
  end.

(** [len(v)] *)
Definition len (v : pyval) : result Z :=
  match v with
  | VList items => Ok (Z.of_nat (length items))
  | VStr s => Ok (Z.of_nat (String.length s))
  | VDict d => Ok (Z.of_nat (size d))
  | _ => Raise TypeError
  end.

Fixpoint chars (s : string) : list pyval :=
  match s with
  | EmptyString => []
  | String c s' => VStr (String c "") :: chars s'
  end.

(** The items a [for] loop over [v] visits. *)
Definition iter (v : pyval) : result (list pyval) :=
  match v with
  | VList items => Ok items
  | VStr s => Ok (chars s)
  | VDict d => Ok (VStr <$> (map_to_list d).*1)
  | _ => Raise TypeError
  end.

(** [float(v)] *)
Definition py_float (v : pyval) : result float :=
  match v with
  | VFloat f => Ok f
  | VInt z =>
      let f := float_of_Z z in
      if is_finite f then Ok f else Raise OverflowError
  | VBool b => Ok (if b then f_one else f_zero)
  | VStr s =>
      match float_of_string s with
      | Some f => Ok f
      | None => Raise ValueError
      end
  | VNone | VList _ | VDict _ => Raise TypeError
  end.

(** [ingredient.get('name', '').lower()] *)
Definition ingredient_name (ingredient : pyval) : result string :=
  let* name := get ingredient "name" (VStr "") in
  py_lower name.

(** ** Lookup tables *)

Definition specialty_ingredients : list string :=
  ["elderflower"; "orgeat"; "falernum"; "amaro"; "chartreuse"].

Definition fresh_indicators : list string :=
  ["juice"; "mint"; "lemon"; "lime"; "orange"].

Definition spirit_map : list (string * list string) :=
  [ ("vodka", ["vodka"; "absolut"; "smirnoff"]);
    ("gin", ["gin"; "hendrick"; "tanqueray"]);
    ("rum", ["rum"; "bacardi"; "havana club"]);
    ("tequila", ["tequila"; "patron"; "reposado"]);
    ("whiskey", ["whiskey"; "bourbon"; "scotch"; "rye"]);
    ("brandy", ["brandy"; "cognac"; "armagnac"]) ].

Definition calorie_map : list (string * Z) :=
  [ ("rum", 97); ("vodka", 64); ("gin", 70); ("tequila", 69); ("whiskey", 70);
    ("brandy", 65); ("triple sec", 75); ("lime juice", 8); ("simple syrup", 53);
    ("soda", 0) ].

(** ** Field derivers *)

(** One pass of a bonus loop: [score += bonus] when the ingredient's
    name contains one of [keywords]. *)
Definition add_bonus (keywords : list string) (bonus : float)
    (score : float) (ingredient : pyval) : result float :=
  let* name := ingredient_name ingredient in
  Ok (if any_in keywords name then fadd score bonus else score).

Definition calculate_complexity_score (ingredients : pyval) : result float :=
  let score := f_zero in
  let* n := len ingredients in
  let score := fadd score (min_float (fmul (float_of_Z n) f_half) f_three) in
  let* items := iter ingredients in
  let* score := for_each (add_bonus specialty_ingredients f_one) items score in
  let* score := for_each (add_bonus fresh_indicators f_half) items score in
  Ok (min_float score f_ten).

Definition estimate_prep_time (ingredients : pyval) (instructions : pyval) : result Z :=
  match instructions with
  | VStr text =>
      let base_time := 3 in
      let base_time := if contains "muddle" (lower text) then base_time + 2 else base_time in
      let base_time := if contains "shake" (lower text) then base_time + 1 else base_time in
      let steps := count "." text + count ";" text in
      let base_time := base_time + Z.max 0 (steps - 2) in
      Ok (Z.min base_time 15)
  | _ => Raise AttributeError
  end.

(** The inner loop of the spirit scan: does some ingredient name contain
    one of [keywords]?  Stops at the first that does. *)
Fixpoint scan_ingredients (keywords : list string) (items : list pyval) : result bool :=
  match items with
  | [] => Ok false
  | ingredient :: rest =>
      let* name := ingredient_name ingredient in
      if any_in keywords name then Ok true else scan_ingredients keywords rest
  end.

(** The outer loop, over the entries of the spirit table in order. *)
Fixpoint scan_spirits (table : list (string * list string)) (items : list pyval)
  : result string :=
  match table with
  | [] => Ok "non-alcoholic"
  | (spirit, keywords) :: table' =>
      let* found := scan_ingredients keywords items in
      if found then Ok spirit else scan_spirits table' items
  end.

Definition identify_spirit_type (ingredients : pyval) : result string :=
  let* items := iter ingredients in
  scan_spirits spirit_map items.

(** The inner loop of the calorie estimate: the first key of the table
    found in [name] gives the contribution, then [break]. *)
Fixpoint first_match (table : list (string * Z)) (name : string) (amount : float)
  : result Z :=
  match table with
  | [] => Ok 0
  | (key, calories_per_oz) :: table' =>
      if contains key name
      then int_of_float (fmul (float_of_Z calories_per_oz) amount)
      else first_match table' name amount
  end.

Definition add_calories (total_calories : Z) (ingredient : pyval) : result Z :=
  let* name := ingredient_name ingredient in
  let* raw := get ingredient "amount" (VInt 0) in
  let* amount := py_float raw in
  let* calories := first_match calorie_map name amount in
  Ok (total_calories + calories).

Definition estimate_calories (ingredients : pyval) : result Z :=
  let total_calories := 0 in
  let* items := iter ingredients in
  for_each add_calories items total_calories.

(** [list(set(tags))]: the elements of the set of the collected tags,
    in the set's own order. *)
Definition dedupe (tags : list string) : list string :=
  elements (list_to_set tags : gset string).

Definition complexity_tag (complexity : float) : string :=
  if fltb complexity (float_of_Z 3) then "simple"
  else if fltb complexity (float_of_Z 6) then "intermediate"
  else "complex".

Definition generate_tags (cocktail : pyval) : result (list string) :=
  let tags : list string := [] in
  let* v := get cocktail "category" (VStr "") in
  let* category := py_lower v in
  let tags := if String.eqb category "" then tags else (tags ++ [category])%list in
  let* v := get cocktail "glass" (VStr "") in
  let* glass := py_lower v in
  let tags := if String.eqb glass "" then tags else (tags ++ [glass])%list in
  let* ingredients := get cocktail "ingredients" (VList []) in
  let* spirit := identify_spirit_type ingredients in
  let tags := if String.eqb spirit "non-alcoholic" then tags else (tags ++ [spirit])%list in
  let* v := get cocktail "instructions" (VStr "") in
  let* instructions := py_lower v in
  let tags := if contains "shake" instructions then (tags ++ ["shaken"])%list else tags in
  let tags := if contains "stir" instructions then (tags ++ ["stirred"])%list else tags in
  let tags := if contains "muddle" instructions then (tags ++ ["muddled"])%list else tags in
  let* complexity := calculate_complexity_score ingredients in
  let tags := (tags ++ [complexity_tag complexity])%list in
  Ok (dedupe tags).

(** ** The store

    The records of a batch are dictionaries that the enricher copies and
    assigns to; each lives at a location of the store. The values held
    in a record are never assigned to, so they are kept as values. *)

Definition loc : Type := positive.

Record state : Type := mkState {
  heap : gmap loc pyval;
  ticks : nat  (* readings of [datetime.now()] taken so far *)
}.

Definition M (A : Type) : Type := state -> result A * state.

Definition ret {A : Type} (a : A) : M A := fun st => (Ok a, st).

Definition raise {A : Type} (e : exn) : M A := fun st => (Raise e, st).

Definition bindM {A B : Type} (m : M A) (k : A -> M B) : M B :=
  fun st =>
    match m st with
    | (Ok a, st') => k a st'
    | (Raise e, st') => (Raise e, st')
    end.

Notation "'let!' x ':=' e 'in' k" := (bindM e (fun x => k))
  (at level 10, x name, e at level 100, k at level 200).
Notation "e ';;' k" := (bindM e (fun _ => k))
  (at level 100, k at level 200, right associativity).

Definition lift {A : Type} (r : result A) : M A := fun st => (r, st).

Definition alloc (v : pyval) : M loc :=
  fun st =>
    let l := fresh (dom (heap st)) in
    (Ok l, mkState (<[l := v]> (heap st)) (ticks st)).

Definition deref (l : loc) : M pyval :=
  fun st =>
    match heap st !! l with
    | Some v => (Ok v, st)
    | None => (Raise SystemError, st)
    end.

(** [o.copy()]: a shallow copy, of a [dict] or a [list]. *)
Definition copy (l : loc) : M loc :=
  let! v := deref l in
  match v with
  | VDict _ | VList _ => alloc v
  | _ => raise AttributeError
  end.

(** [o[key] = v] for a string [key] *)
Definition setitem (l : loc) (key : string) (v : pyval) : M unit :=
  let! o := deref l in
  match o with
  | VDict d => fun st => (Ok tt, mkState (<[l := VDict (<[key := v]> d)]> (heap st)) (ticks st))
  | _ => raise TypeError
  end.

(** [o.get(key, fallback)] on the object at [l] *)
Definition get_at (l : loc) (key : string) (fallback : pyval) : M pyval :=
  let! o := deref l in
  lift (get o key fallback).

Fixpoint mapM {A B : Type} (f : A -> M B) (items : list A) : M (list B) :=
  match items with
  | [] => ret []
  | x :: rest => let! y := f x in let! ys := mapM f rest in ret (y :: ys)
  end.

(** ** The outside world

    The clock and the two AWS clients. [s3_get_object] stands for
    [get_object] followed by decoding and [json.loads]; the body handed
    to [s3_put_object] is the collection before serialisation. *)

Record summary : Type := mkSummary {
  date_partition : string;
  processed_at : string;
  record_count : Z;
  total_ingredients : pyval;
  avg_complexity : float
}.

Record world : Type := mkWorld {
  isoformat : nat -> string;     (* the n-th reading, as [.isoformat()] *)
  strftime : nat -> string;      (* the n-th reading, as [.strftime('%Y/%m/%d')] *)
  s3_get_object : string -> string -> result pyval;
  s3_put_object : string -> string -> list pyval -> result unit;
  dynamodb_put_item : string -> summary -> result unit
}.

Record event : Type := mkEvent {
  input_bucket : option string;
  output_bucket : option string;
  event_date_partition : option string
}.

Record response : Type := mkResponse {
  statusCode : Z;
  message : string;
  records_processed : Z;
  output_location : string
}.

Section Pipeline.

Context (w : world).

(** One reading of [datetime.now()], rendered by [render]. *)
Definition datetime_now (render : world -> nat -> string) : M string :=
  fun st => (Ok (render w (ticks st)), mkState (heap st) (S (ticks st))).

(** *** Record enricher *)

Definition enrich_single_cocktail (cocktail : loc) : M loc :=
  let! enriched := copy cocktail in
  let! stamp := datetime_now isoformat in
  setitem enriched "enriched_at" (VStr stamp) ;;
  let! ingredients := get_at enriched "ingredients" (VList []) in
  let! n := lift (len ingredients) in
  setitem enriched "ingredient_count" (VInt n) ;;
  let! score := lift (calculate_complexity_score ingredients) in
  setitem enriched "complexity_score" (VFloat score) ;;
  let! instructions := get_at enriched "instructions" (VStr "") in
  let! words :=
    lift (match instructions with
          | VStr text => Ok (split text)
          | _ => Raise AttributeError
          end) in
  setitem enriched "instruction_word_count" (VInt (Z.of_nat (length words))) ;;
  let! minutes := lift (estimate_prep_time ingredients instructions) in
  setitem enriched "estimated_prep_time" (VInt minutes) ;;
  let! items := lift (iter ingredients) in
  let! names := lift (comprehension ingredient_name items) in
  setitem enriched "is_alcoholic" (VBool (contains "rum" (join " " names))) ;;
  let! spirit := lift (identify_spirit_type ingredients) in
  setitem enriched "spirit_type" (VStr spirit) ;;
  let! calories := lift (estimate_calories ingredients) in
  setitem enriched "estimated_calories" (VInt calories) ;;
  let! original := deref cocktail in
  let! tags := lift (generate_tags original) in
  setitem enriched "tags" (VList (VStr <$> tags)) ;;
  ret enriched.

(** *** Batch pipeline *)

Definition read_from_s3 (bucket key : string) : M (list loc) :=
  let! data := lift (s3_get_object w bucket key) in
  let records := match data with VList items => items | _ => [data] end in
  mapM alloc records.

Definition enrich_cocktail_data (bucket partition : string) : M (list loc) :=
  let input_key := "transformed/" ++ partition ++ "/transformed_cocktail_data.json" in
  let! cocktail_data := read_from_s3 bucket input_key in
  mapM enrich_single_cocktail cocktail_data.

Definition write_to_s3 (data : list loc) (bucket key : string) : M unit :=
  let! body := mapM deref data in
  lift (s3_put_object w bucket key body).

(** [a + b] on numbers *)
Definition add (a b : pyval) : result pyval :=
  let as_int (v : pyval) : option Z :=
    match v with
    | VInt z => Some z
    | VBool b => Some (if b then 1 else 0)
    | _ => None
    end in
  match as_int a, as_int b with
  | Some x, Some y => Ok (VInt (x + y))
  | _, _ =>
      match a, b with
      | (VInt _ | VBool _ | VFloat _), (VInt _ | VBool _ | VFloat _) =>
          let* x := py_float a in
          let* y := py_float b in
          Ok (VFloat (fadd x y))
      | _, _ => Raise TypeError
      end
  end.

(** [sum(c.get(key, 0) for c in data)] *)
Definition sum_field (key : string) (data : list loc) : M pyval :=
  let step (total : pyval) (c : loc) : M pyval :=
    let! v := get_at c key (VInt 0) in
    lift (add total v) in
  fold_left (fun acc c => let! total := acc in step total c) data (ret (VInt 0)).

(** [total / n] for the integer [n] *)
Definition truediv (total : pyval) (n : Z) : result float :=
  match total with
  | VInt _ | VBool _ | VFloat _ =>
      if (n =? 0)%Z then Raise ZeroDivisionError
      else
        match total with
        | VFloat f => Ok (fdiv f (float_of_Z n))
        | _ =>
            let z := match total with VInt z => z | VBool true => 1 | _ => 0 end in
            let q :=
              match z, n with
              | Zpos p, Zpos d => float_of_ratio false p d
              | Zneg p, Zpos d => float_of_ratio true p d
              | Zpos p, Zneg d => float_of_ratio true p d
              | Zneg p, Zneg d => float_of_ratio false p d
              | _, _ => S754_zero (n <? 0)%Z
              end in
            if is_finite q then Ok q else Raise OverflowError
        end
  | _ => Raise TypeError
  end.

(** [try: body except ClientError: log a warning] *)
Definition except_ClientError (body : M unit) : M unit :=
  fun st =>
    match body st with
    | (Raise (ClientError _), st') => (Ok tt, st')
    | outcome => outcome
    end.

Definition write_processing_summary (data : list loc) (partition : string) : M unit :=
  except_ClientError
    (let! stamp := datetime_now isoformat in
     let count := Z.of_nat (length data) in
     let! ingredients := sum_field "ingredient_count" data in
     let! complexity := sum_field "complexity_score" data in
     let! average := lift (truediv complexity (Z.of_nat (length data))) in
     let item := mkSummary partition stamp count ingredients average in
     lift (dynamodb_put_item w "mocktailverse-processing-summary" item)).

(** [try: body except Exception as e: log; raise] *)
Definition log_and_reraise {A : Type} (body : M A) : M A :=
  fun st =>
    match body st with
    | (Raise e, st') => (Raise e, st')
    | outcome => outcome
    end.

Definition lambda_handler (ev : event) : M response :=
  log_and_reraise
    (let in_bucket := default "mocktailverse-processed-data" (input_bucket ev) in
     let out_bucket := default "mocktailverse-processed-data" (output_bucket ev) in
     let! today := datetime_now strftime in
     let partition := default today (event_date_partition ev) in
     let! enriched_data := enrich_cocktail_data in_bucket partition in
     let output_key := "enriched/" ++ partition ++ "/enriched_cocktail_data.json" in
     write_to_s3 enriched_data out_bucket output_key ;;
     write_processing_summary enriched_data partition ;;
     ret (mkResponse 200 "Data enrichment completed successfully"
            (Z.of_nat (length enriched_data))
            ("s3://" ++ out_bucket ++ "/" ++ output_key))).

End Pipeline.

(** * Vocabulary of the properties *)

(** ** Well-formed recipes

    The data model of the records: every field is optional; when
    present, [name], [instructions], [category] and [glass] are strings
    and [ingredients] is a list of dictionaries. *)

Definition is_text (o : option pyval) : bool :=
  match o with
  | None | Some (VStr _) => true
  | _ => false
  end.

Definition text_of (o : option pyval) : string :=
  match o with
  | Some (VStr s) => s
  | _ => ""
  end.

Definition wf_ingredient (v : pyval) : bool :=
  match v with
  | VDict d => is_text (d !! "name")
  | _ => false
  end.

(** The lowercased name of a well-formed ingredient. *)
Definition name_of (v : pyval) : string :=
  match v with
  | VDict d => lower (text_of (d !! "name"))
  | _ => ""
  end.

Definition wf_ingredients (o : option pyval) : bool :=
  match o with
  | None => true
  | Some (VList items) => forallb wf_ingredient items
  | _ => false
  end.

Definition wf_recipe (d : gmap string pyval) : bool :=
  wf_ingredients (d !! "ingredients") && is_text (d !! "instructions")
  && is_text (d !! "category") && is_text (d !! "glass").

(** Some ingredient's lowercased name contains one of [keywords]. *)
Definition hit (keywords : list string) (items : list pyval) : Prop :=
  exists v, In v items /\ any_in keywords (name_of v) = true.

(** The three complexity levels. *)
Definition levels : list string := ["simple"; "intermediate"; "complex"].

(** ** Amounts and products *)

(** Zero, a positive number or plus infinity: not a NaN, not negative. *)
Definition nonneg (f : float) : bool :=
  match f with
  | S754_zero _ | S754_finite false _ _ | S754_infinity false => true
  | _ => false
  end.

(** A table value whose double is zero or a positive one with exponent
    at most 0. *)
Definition table_value (c : Z) : bool :=
  match float_of_Z c with
  | S754_zero _ => true
  | S754_finite false m e => (Z.pos (digits2_pos m) <=? 53)%Z && (e <=? 0)%Z
  | _ => false
  end.

(** The table value of the first key found in [name]: what the inner
    loop of the estimator multiplies, if anything. *)
Fixpoint table_lookup (table : list (string * Z)) (name : string) : option Z :=
  match table with
  | [] => None
  | (key, calories_per_oz) :: table' =>
      if contains key name then Some calories_per_oz else table_lookup table' name
  end.

(** [float(ingredient.get('amount', 0))], when [float()] converts. *)
Definition amount_of (v : pyval) : option float :=
  match v with
  | VDict d =>
      match py_float (default (VInt 0) (d !! "amount")) with
      | Ok amount => Some amount
      | Raise _ => None
      end
  | _ => None
  end.

(** [calories_per_oz * amount], the product the estimator truncates for
    an ingredient; none when its name contains no key of the table. *)
Definition product_of (v : pyval) : option float :=
  match amount_of v, table_lookup calorie_map (name_of v) with
  | Some amount, Some calories_per_oz => Some (fmul (float_of_Z calories_per_oz) amount)
  | _, _ => None
  end.

(** The product of the ingredient, if it has one, is a finite number. *)
Definition finite_product (v : pyval) : bool :=
  match product_of v with
  | Some product => is_finite product
  | None => true
  end.

(** An ingredient whose amount is absent or converts, and is not
    negative if the name contains a key of the table. *)
Definition nonneg_amount (v : pyval) : bool :=
  wf_ingredient v
  && match amount_of v, table_lookup calorie_map (name_of v) with
     | Some amount, Some _ => nonneg amount
     | Some _, None => true
     | None, _ => false
     end.

(** The estimator accepts the ingredient: [float()] converts its amount
    and its product, if it has one, is finite. *)
Definition priced (v : pyval) : bool :=
  match amount_of v with
  | Some _ => finite_product v
  | None => false
  end.

Definition priced_ingredients (o : option pyval) : bool :=
  match o with
  | None => true
  | Some (VList items) => forallb priced items
  | _ => false
  end.

(** A well-formed recipe whose ingredients the estimator accepts. *)
Definition enrichable (d : gmap string pyval) : bool :=
  wf_recipe d && priced_ingredients (d !! "ingredients").

(** The exceptions of [float()] and [int()]. *)
Definition conversion_error (e : exn) : Prop :=
  e = ValueError \/ e = TypeError \/ e = OverflowError.

(** ** The record enricher as a function of the record *)

Record derived : Type := mkDerived {
  ingredient_count : Z;
  complexity_score : float;
  instruction_word_count : Z;
  estimated_prep_time : Z;
  is_alcoholic : bool;
  spirit_type : string;
  estimated_calories : Z;
  tags : list string
}.

(** The derived values of a record, computed in the order of the
    enricher. *)
Definition derive (d : gmap string pyval) : result derived :=
  let ingredients := default (VList []) (d !! "ingredients") in
  let* n := len ingredients in
  let* score := calculate_complexity_score ingredients in
  let instructions := default (VStr "") (d !! "instructions") in
  let* words :=
    match instructions with
    | VStr text => Ok (split text)
    | _ => Raise AttributeError
    end in
  let* minutes := estimate_prep_time ingredients instructions in
  let* items := iter ingredients in
  let* names := comprehension ingredient_name items in
  let* spirit := identify_spirit_type ingredients in
  let* calories := estimate_calories ingredients in
  let* labels := generate_tags (VDict d) in
  Ok (mkDerived n score (Z.of_nat (length words)) minutes
        (contains "rum" (join " " names)) spirit calories labels).

(** The record with the timestamp and the derived values assigned, in
    the order of the enricher. *)
Definition attach (stamp : string) (f : derived) (d : gmap string pyval)
  : gmap string pyval :=
  <["tags" := VList (VStr <$> tags f)]>
  (<["estimated_calories" := VInt (estimated_calories f)]>
  (<["spirit_type" := VStr (spirit_type f)]>
  (<["is_alcoholic" := VBool (is_alcoholic f)]>
  (<["estimated_prep_time" := VInt (estimated_prep_time f)]>
  (<["instruction_word_count" := VInt (instruction_word_count f)]>
  (<["complexity_score" := VFloat (complexity_score f)]>
  (<["ingredient_count" := VInt (ingredient_count f)]>
  (<["enriched_at" := VStr stamp]> d)))))))).

(** The names the enricher assigns to. *)
Definition derived_fields : list string :=
  [ "enriched_at"; "ingredient_count"; "complexity_score"; "instruction_word_count";
    "estimated_prep_time"; "is_alcoholic"; "spirit_type"; "estimated_calories"; "tags" ].

(** The names the derivers read. *)
Definition base_fields : list string :=
  [ "ingredients"; "instructions"; "category"; "glass" ].

Definition agree_on (keys : list string) (d1 d2 : gmap string pyval) : Prop :=
  forall k, k ∈ keys -> d1 !! k = d2 !! k.

(** Two runs of the enricher end alike: with the same exception, or
    with records that agree on every derived field but the timestamp. *)
Definition same_derived (r1 r2 : result loc * state) : Prop :=
  match r1, r2 with
  | (Ok l1, st1), (Ok l2, st2) =>
      exists e1 e2,
        heap st1 !! l1 = Some (VDict e1)
        /\ heap st2 !! l2 = Some (VDict e2)
        /\ forall k, k ∈ derived_fields -> k <> "enriched_at" -> e1 !! k = e2 !! k
  | (Raise x1, _), (Raise x2, _) => x1 = x2
  | _, _ => False
  end.

(** ** Example data *)

Definition f_three_quarters : float := float_of_scaled 3 (-2).

Definition daiquiri_ingredients : pyval :=
  VList [ VDict {[ "name" := VStr "Light Rum"; "amount" := VInt 2 ]};
          VDict {[ "name" := VStr "Lime Juice"; "amount" := VInt 1 ]};
          VDict {[ "name" := VStr "Simple Syrup"; "amount" := VFloat f_three_quarters ]} ].

Definition daiquiri_instructions : pyval :=
  VStr "Shake all ingredients with ice. Strain into glass.".

Definition daiquiri : gmap string pyval :=
  {[ "ingredients" := daiquiri_ingredients; "instructions" := daiquiri_instructions ]}.

Definition mojito : gmap string pyval :=
  {[ "category" := VStr "Cocktail";
     "glass" := VStr "Highball glass";
     "ingredients" :=
       VList [ VDict {[ "name" := VStr "White Rum"; "amount" := VInt 2 ]};
               VDict {[ "name" := VStr "Mint" ]};
               VDict {[ "name" := VStr "Soda water"; "amount" := VFloat f_half ]} ];
     "instructions" := VStr "Muddle mint. Add rum; top with soda." ]}.

(** [mojito] with fields that are not base fields. *)
Definition named_mojito : gmap string pyval :=
  <["name" := VStr "Mojito"]> (<["id" := VInt 11000]> (<["tags" := VStr "iba"]> mojito)).

Definition two_rum_and_syrup : list pyval :=
  [ VDict {[ "name" := VStr "Dark Rum"; "amount" := VInt 2 ]};
    VDict {[ "name" := VStr "Simple Syrup"; "amount" := VStr "0.75" ]};
    VDict {[ "name" := VStr "Ice" ]} ].

(** A measure of rum that only a double can hold: [2^1000] ounces. *)
Definition f_huge : float := float_of_scaled 1 1000.

Definition rum_by_the_sea : list pyval :=
  [ VDict {[ "name" := VStr "Rum"; "amount" := VFloat f_huge ]};
    VDict {[ "name" := VStr "Soda"; "amount" := VStr "1e308" ]};
    VDict {[ "name" := VStr "Ice"; "amount" := VInt (-1) ]} ].

(** A world for the examples: a clock with two faces, a bucket that
    holds [batch], clients that succeed. *)
Definition calm_world (batch : pyval) : world :=
  mkWorld (fun n => if Nat.even n then "2024-01-01T00:00:00" else "2024-01-01T00:00:01")
          (fun _ => "2024/01/01")
          (fun _ _ => Ok batch)
          (fun _ _ _ => Ok tt)
          (fun _ _ => Ok tt).

(** ** The batch, the summary and the handler *)

(** The records of a decoded object: the elements of a list, or the
    object alone. *)
Definition records_of (data : pyval) : list pyval :=
  match data with
  | VList items => items
  | _ => [data]
  end.

(** The enriched records of a batch, in order: the i-th record with its
    derived values attached under the i-th reading of the clock, the
    first of which is reading [t]. *)
Fixpoint enriched_body (w : world) (t : nat) (ds : list (gmap string pyval))
    (fs : list derived) : list pyval :=
  match ds, fs with
  | d :: ds', f :: fs' => VDict (attach (isoformat w t) f d) :: enriched_body w (S t) ds' fs'
  | _, _ => []
  end.

(** The keys of the input and of the output object of a partition. *)
Definition input_key (partition : string) : string :=
  "transformed/" ++ partition ++ "/transformed_cocktail_data.json".

Definition output_key (partition : string) : string :=
  "enriched/" ++ partition ++ "/enriched_cocktail_data.json".

(** One pass of [sum(c.get(key, 0) for c in data)]. *)
Definition sum_step (key : string) (acc : M pyval) (c : loc) : M pyval :=
  let! total := acc in
  let! v := get_at c key (VInt 0) in
  lift (add total v).

(** The record at [l] counts [figures.1] ingredients (0 when the field
    is absent) and has the complexity score [figures.2]. *)
Definition has_figures (h : gmap loc pyval) (l : loc) (figures : Z * float) : Prop :=
  exists e,
    h !! l = Some (VDict e)
    /\ default (VInt 0) (e !! "ingredient_count") = VInt figures.1
    /\ e !! "complexity_score" = Some (VFloat figures.2).

(** The item of the summary table for records with these figures. *)
Definition summary_item (partition stamp : string) (figures : list (Z * float))
  : summary :=
  mkSummary partition stamp
    (Z.of_nat (length figures))
    (VInt (fold_left Z.add figures.*1 0%Z))
    (fdiv (fold_left fadd figures.*2 f_zero) (float_of_Z (Z.of_nat (length figures)))).

(** A store of two summarised records, the second without a count. *)
Definition two_summarised : gmap loc pyval :=
  {[ 1%positive := VDict {[ "ingredient_count" := VInt 3;
                            "complexity_score" := VFloat f_three ]};
     2%positive := VDict {[ "complexity_score" := VFloat f_half ]} ]}.

(** The buckets of an invocation: the event's, or the default. *)
Definition handler_input_bucket (ev : event) : string :=
  default "mocktailverse-processed-data" (input_bucket ev).

Definition handler_output_bucket (ev : event) : string :=
  default "mocktailverse-processed-data" (output_bucket ev).

(** The partition of an invocation that starts at clock reading [t]:
    the event's, or the day of that reading. *)
Definition handler_partition (w : world) (ev : event) (t : nat) : string :=
  default (strftime w t) (event_date_partition ev).

(** The two figures of each record that the summary adds up. *)
Definition figures_of (fs : list derived) : list (Z * float) :=
  (fun f => (ingredient_count f, complexity_score f)) <$> fs.

(** The answer of the handler after [n] records. *)
Definition success (ev : event) (partition : string) (n : nat) : response :=
  mkResponse 200 "Data enrichment completed successfully" (Z.of_nat n)
    ("s3://" ++ handler_output_bucket ev ++ "/" ++ output_key partition).

(** A world whose bucket has no object, and one whose bucket holds
    [batch] and refuses writes. *)
Definition missing_world : world :=
  mkWorld (fun _ => "2024-01-01T00:00:00") (fun _ => "2024/01/01")
          (fun _ _ => Raise (ClientError "NoSuchKey"))
          (fun _ _ _ => Ok tt)
          (fun _ _ => Ok tt).

Definition readonly_world (batch : pyval) : world :=
  mkWorld (fun _ => "2024-01-01T00:00:00") (fun _ => "2024/01/01")
          (fun _ _ => Ok batch)
          (fun _ _ _ => Raise (ClientError "AccessDenied"))
          (fun _ _ => Ok tt).

(** A record with an amount that is not a number. *)
Definition two_ounces_in_words : gmap string pyval :=
  {[ "ingredients" := VList [VDict {[ "name" := VStr "Rum"; "amount" := VStr "two" ]}] ]}.

(** Ingredients whose amounts are not finite. *)
Definition tonic_nan : gmap string pyval :=
  {[ "name" := VStr "Tonic Water"; "amount" := VFloat S754_nan ]}.

Definition soda_infinity : gmap string pyval :=
  {[ "name" := VStr "Soda Water"; "amount" := VFloat (S754_infinity false) ]}.

(** The tags collected before duplicates are removed. *)
Definition collected_tags (category glass spirit instructions level : string)
  : list string :=
  let tags : list string := [] in
  let tags := if String.eqb category "" then tags else (tags ++ [category])%list in
  let tags := if String.eqb glass "" then tags else (tags ++ [glass])%list in
  let tags := if String.eqb spirit "non-alcoholic" then tags else (tags ++ [spirit])%list in
  let tags := if contains "shake" instructions then (tags ++ ["shaken"])%list else tags in
  let tags := if contains "stir" instructions then (tags ++ ["stirred"])%list else tags in
  let tags := if contains "muddle" instructions then (tags ++ ["muddled"])%list else tags in
  (tags ++ [level])%list.

(** A record without ingredients. *)
Definition virgin_note : gmap string pyval :=
  {[ "name" := VStr "Water"; "instructions" := VStr "Pour." ]}.

(** An ingredient with its name put in lower case. *)
Definition lowercased (v : pyval) : pyval :=
  match v with
  | VDict d => VDict (<["name" := VStr (lower (text_of (d !! "name")))]> d)
  | _ => v
  end.

(** The time for an instruction text whose two keywords were found or
    not and that has [steps] step marks. *)
Definition prep_time_of (muddle shake : bool) (steps : Z) : Z :=
  Z.min (3 + (if muddle then 2 else 0) + (if shake then 1 else 0) + Z.max 0 (steps - 2)) 15.

(** * Properties *)

(** ** Signs of rounded results

    Rounding never turns a non-negative mantissa into a NaN or a
    negative number. *)

Lemma shr_1_nonneg (mrs : shr_record) :
  (0 <= shr_m mrs)%Z -> (0 <= shr_m (shr_1 mrs))%Z.
Proof.
  destruct mrs as [m r s]; simpl.
  destruct m as [|p|p]; [easy| |intros H; exfalso; lia].
  destruct p; simpl; lia.
Qed.

Lemma iter_shr_1_nonneg (p : positive) (mrs : shr_record) :
  (0 <= shr_m mrs)%Z -> (0 <= shr_m (SpecFloat.iter_pos shr_1 p mrs))%Z.
Proof.
  revert mrs. induction p as [p IH|p IH|]; intros mrs H; simpl.
  - apply IH, IH, shr_1_nonneg, H.
  - apply IH, IH, H.
  - apply shr_1_nonneg, H.
Qed.

Lemma shr_m_of_loc (m : Z) (l : location) : shr_m (shr_record_of_loc m l) = m.
Proof. destruct l as [|[ | | ]]; reflexivity. Qed.

Lemma shr_fexp_nonneg (m e : Z) (l : location) :
  (0 <= m)%Z -> (0 <= shr_m (fst (shr_fexp prec emax m e l)))%Z.
Proof.
  intros H. unfold shr_fexp, shr.
  destruct (fexp prec emax (Zdigits2 m + e) - e)%Z; simpl;
    try (rewrite shr_m_of_loc; exact H).
  apply iter_shr_1_nonneg. rewrite shr_m_of_loc. exact H.
Qed.

Lemma round_nearest_even_nonneg (m : Z) (l : location) :
  (0 <= m)%Z -> (0 <= round_nearest_even m l)%Z.
Proof.
  intros H. unfold round_nearest_even.
  destruct l as [|[ | | ]]; try destruct (Z.even m); lia.
Qed.

Lemma binary_round_aux_nonneg (m e : Z) (l : location) :
  (0 <= m)%Z -> nonneg (binary_round_aux prec emax false m e l) = true.
Proof.
  intros H. unfold binary_round_aux.
  pose proof (shr_fexp_nonneg m e l H) as H1.
  destruct (shr_fexp prec emax m e l) as [mrs' e']. simpl in H1.
  pose proof (round_nearest_even_nonneg _ (loc_of_shr_record mrs') H1) as H2.
  pose proof (shr_fexp_nonneg _ e' loc_Exact H2) as H3.
  destruct (shr_fexp prec emax _ e' loc_Exact) as [mrs'' e'']. simpl in H3.
  destruct (shr_m mrs'') as [|p|p]; [reflexivity| |exfalso; lia].
  destruct (e'' <=? emax - prec)%Z; reflexivity.
Qed.

Lemma binary_round_nonneg (m : positive) (e : Z) :
  nonneg (binary_round prec emax false m e) = true.
Proof.
  unfold binary_round.
  destruct (shl_align m e _) as [mz ez].
  apply binary_round_aux_nonneg. lia.
Qed.

Lemma float_of_scaled_nonneg (m e : Z) :
  (0 <= m)%Z -> nonneg (float_of_scaled m e) = true.
Proof.
  intros H. unfold float_of_scaled, binary_normalize.
  destruct m as [|p|p]; [reflexivity|apply binary_round_nonneg|exfalso; lia].
Qed.

Lemma fadd_nonneg (x y : float) :
  nonneg x = true -> nonneg y = true -> nonneg (fadd x y) = true.
Proof.
  destruct x as [sx|[|]| |[|] mx ex]; try discriminate;
    destruct y as [sy|[|]| |[|] my ey]; try discriminate; intros _ _;
    try reflexivity; try (destruct sx; reflexivity);
    try (destruct sx, sy; reflexivity).
  unfold fadd, SFadd. simpl cond_Zopp.
  apply (float_of_scaled_nonneg (Z.pos _ + Z.pos _)). lia.
Qed.

(** A non-negative number times a positive finite one. *)
Lemma fmul_nonneg (x : float) (m : positive) (e : Z) :
  nonneg x = true -> nonneg (fmul x (S754_finite false m e)) = true.
Proof.
  destruct x as [sx|[|]| |[|] mx ex]; try discriminate; intros _;
    try reflexivity.
  unfold fmul, SFmul. simpl xorb. apply binary_round_aux_nonneg. lia.
Qed.

Lemma min_float_nonneg (x y : float) :
  nonneg x = true -> nonneg y = true -> nonneg (min_float x y) = true.
Proof. intros Hx Hy. unfold min_float. destruct (fltb y x); assumption. Qed.

Lemma fleb_zero_nonneg (x : float) : nonneg x = true -> fleb f_zero x = true.
Proof. destruct x as [s|[|]| |[|] m e]; try discriminate; reflexivity. Qed.

(** On non-negative numbers the order is total. *)
Lemma not_fltb_fleb (x y : float) :
  nonneg x = true -> nonneg y = true -> fltb y x = false -> fleb x y = true.
Proof.
  destruct x as [sx|[|]| |[|] mx ex]; try discriminate;
    destruct y as [sy|[|]| |[|] my ey]; try discriminate; intros _ _;
    try reflexivity; try discriminate.
  unfold fltb, fleb, SFltb, SFleb, SFcompare.
  rewrite (Z.compare_antisym ey ex).
  destruct (ey ?= ex)%Z eqn:He; simpl; try reflexivity; try discriminate.
  change (Pos.compare_cont Eq mx my) with (Pos.compare_cont (CompOpp Eq) mx my).
  rewrite <- (Pos.compare_cont_antisym my mx Eq).
  destruct (Pos.compare_cont Eq my mx); simpl; try reflexivity; discriminate.
Qed.

Lemma min_float_le (x y : float) :
  nonneg x = true -> nonneg y = true -> fleb y y = true ->
  fleb (min_float x y) y = true.
Proof.
  intros Hx Hy Hyy. unfold min_float.
  destruct (fltb y x) eqn:E; [exact Hyy|]. apply not_fltb_fleb; assumption.
Qed.

(** ** Well-formed ingredients *)

Lemma ingredient_name_wf (v : pyval) :
  wf_ingredient v = true -> ingredient_name v = Ok (name_of v).
Proof.
  destruct v as [| | | | | |d]; try discriminate. simpl.
  unfold ingredient_name, get, name_of. simpl.
  destruct (d !! "name") as [[]|]; try discriminate; reflexivity.
Qed.

Lemma forallb_cons_inv {A : Type} (p : A -> bool) (x : A) (l : list A) :
  forallb p (x :: l) = true -> p x = true /\ forallb p l = true.
Proof. simpl. intros H. apply andb_true_iff in H. exact H. Qed.

Lemma comprehension_names (items : list pyval) :
  forallb wf_ingredient items = true ->
  comprehension ingredient_name items = Ok (map name_of items).
Proof.
  induction items as [|v items IH]; [reflexivity|].
  intros H. apply forallb_cons_inv in H as [Hv Hitems]. simpl.
  rewrite (ingredient_name_wf v Hv). simpl. rewrite (IH Hitems). reflexivity.
Qed.

(** ** Complexity score and preparation time *)

Lemma bonus_loop_nonneg (keywords : list string) (bonus : float) (items : list pyval) :
  nonneg bonus = true ->
  forallb wf_ingredient items = true ->
  forall score, nonneg score = true ->
  exists score', for_each (add_bonus keywords bonus) items score = Ok score'
                 /\ nonneg score' = true.
Proof.
  intros Hb. induction items as [|v items IH]; intros Hwf score Hs.
  - exists score. split; [reflexivity|exact Hs].
  - apply forallb_cons_inv in Hwf as [Hv Hitems]. simpl.
    unfold add_bonus at 1. rewrite (ingredient_name_wf v Hv). simpl.
    apply (IH Hitems).
    destruct (any_in keywords (name_of v)); [apply fadd_nonneg|]; assumption.
Qed.

Lemma complexity_score_nonneg (items : list pyval) :
  forallb wf_ingredient items = true ->
  exists score, calculate_complexity_score (VList items) = Ok score
                /\ nonneg score = true /\ fleb score f_ten = true.
Proof.
  intros Hwf. unfold calculate_complexity_score, len, iter. cbn [bind].
  set (base := fadd f_zero _).
  assert (Hbase : nonneg base = true).
  { apply fadd_nonneg; [reflexivity|]. apply min_float_nonneg; [|reflexivity].
    apply (fmul_nonneg _ 4503599627370496 (-53)).
    apply float_of_scaled_nonneg. lia. }
  destruct (bonus_loop_nonneg specialty_ingredients f_one items eq_refl Hwf base Hbase)
    as (s1 & E1 & H1).
  rewrite E1. cbn [bind].
  destruct (bonus_loop_nonneg fresh_indicators f_half items eq_refl Hwf s1 H1)
    as (s2 & E2 & H2).
  rewrite E2. cbn [bind].
  exists (min_float s2 f_ten). split; [reflexivity|]. split.
  - apply min_float_nonneg; [exact H2|reflexivity].
  - apply min_float_le; [exact H2|reflexivity|reflexivity].
Qed.

(** C5. For every list of ingredients the complexity score lies in
    [0.0, 10.0], and for every instructions text the estimated
    preparation time lies in [3, 15]: it is 3, plus 2 for "muddle", plus
    1 for "shake", plus [max(0, steps - 2)], capped at 15. *)
Theorem complexity_and_prep_time_in_range
    (items : list pyval) (ingredients : pyval) (text : string) :
  forallb wf_ingredient items = true ->
  (exists score,
      calculate_complexity_score (VList items) = Ok score
      /\ fleb f_zero score = true /\ fleb score f_ten = true)
  /\ (exists minutes,
      estimate_prep_time ingredients (VStr text) = Ok minutes
      /\ (3 <= minutes <= 15)%Z
      /\ minutes =
           Z.min (3 + (if contains "muddle" (lower text) then 2 else 0)
                    + (if contains "shake" (lower text) then 1 else 0)
                    + Z.max 0 (count "." text + count ";" text - 2)) 15).
Proof.
  intros Hwf. split.
  - destruct (complexity_score_nonneg items Hwf) as (score & E & Hn & Hle).
    exists score. split; [exact E|]. split; [|exact Hle].
    apply fleb_zero_nonneg, Hn.
  - eexists. split; [reflexivity|].
    destruct (contains "muddle" (lower text)), (contains "shake" (lower text));
      split; lia.
Qed.

Lemma complexity_and_prep_time_in_range_witness :
  (exists score,
      calculate_complexity_score
        (VList [VDict {[ "name" := VStr "Lime Juice" ]}; VDict {[ "name" := VStr "Orgeat" ]}])
      = Ok score
      /\ fleb f_zero score = true /\ fleb score f_ten = true)
  /\ (exists minutes,
      estimate_prep_time VNone (VStr "Muddle; shake. Strain. Serve.") = Ok minutes
      /\ (3 <= minutes <= 15)%Z).
Proof.
  assert (Hwf : forallb wf_ingredient
                  [VDict {[ "name" := VStr "Lime Juice" ]};
                   VDict {[ "name" := VStr "Orgeat" ]}] = true)
    by (vm_compute; reflexivity).
  destruct (complexity_and_prep_time_in_range _ VNone "Muddle; shake. Strain. Serve." Hwf)
    as [Hs (m & E & Hm & _)].
  split; [exact Hs|]. exists m. split; [exact E|exact Hm].
Defined.

(** The floor and the cap: no ingredients score 0.0; twelve fresh
    specialty ingredients reach 3.0 + 12.0 + 6.0 and are clamped to
    10.0. *)
Example complexity_floor : calculate_complexity_score (VList []) = Ok f_zero.
Proof. vm_compute. reflexivity. Qed.

Example complexity_cap :
  calculate_complexity_score
    (VList (repeat (VDict {[ "name" := VStr "Elderflower Lemon Cordial" ]}) 12))
  = Ok f_ten.
Proof. vm_compute. reflexivity. Qed.

Example prep_time_cap :
  estimate_prep_time VNone (VStr "Muddle. Shake. A. B. C. D. E. F. G. H. I. J. K. L.")
  = Ok 15%Z.
Proof. vm_compute. reflexivity. Qed.

(** ** Spirit type *)

Lemma scan_ingredients_wf (keywords : list string) (items : list pyval) :
  forallb wf_ingredient items = true ->
  scan_ingredients keywords items
  = Ok (existsb (fun v => any_in keywords (name_of v)) items).
Proof.
  induction items as [|v items IH]; [reflexivity|].
  intros H. apply forallb_cons_inv in H as [Hv Hitems]. simpl.
  rewrite (ingredient_name_wf v Hv). cbn [bind].
  destruct (any_in keywords (name_of v)); [reflexivity|]. exact (IH Hitems).
Qed.

Lemma existsb_hit (keywords : list string) (items : list pyval) :
  existsb (fun v => any_in keywords (name_of v)) items = true <-> hit keywords items.
Proof. apply existsb_exists. Qed.

(** The scan of one spirit stops at the first ingredient that matches:
    what follows it is not looked at. *)
Lemma scan_ingredients_stops (keywords : list string) (before after : list pyval) (v : pyval) :
  forallb wf_ingredient before = true ->
  wf_ingredient v = true ->
  any_in keywords (name_of v) = true ->
  scan_ingredients keywords (before ++ v :: after) = Ok true.
Proof.
  intros Hb Hv Hhit. induction before as [|u before IH]; simpl.
  - rewrite (ingredient_name_wf v Hv). cbn [bind]. rewrite Hhit. reflexivity.
  - apply forallb_cons_inv in Hb as [Hu Hb].
    rewrite (ingredient_name_wf u Hu). cbn [bind].
    destruct (any_in keywords (name_of u)); [reflexivity|]. exact (IH Hb).
Qed.

Lemma scan_spirits_first (table : list (string * list string)) (items : list pyval) :
  forallb wf_ingredient items = true ->
  exists spirit,
    scan_spirits table items = Ok spirit
    /\ ((spirit = "non-alcoholic"
         /\ forall i s keywords, table !! i = Some (s, keywords) -> ~ hit keywords items)
        \/ (exists i keywords,
               table !! i = Some (spirit, keywords)
               /\ hit keywords items
               /\ forall j s keywords',
                   (j < i)%nat -> table !! j = Some (s, keywords') ->
                   ~ hit keywords' items)).
Proof.
  intros Hwf. induction table as [|[s keywords] table IH].
  - exists "non-alcoholic". split; [reflexivity|]. left. split; [reflexivity|].
    intros i s keywords H. discriminate.
  - simpl. rewrite (scan_ingredients_wf keywords items Hwf). cbn [bind].
    destruct (existsb _ items) eqn:E.
    + exists s. split; [reflexivity|]. right. exists 0%nat, keywords.
      split; [reflexivity|]. split; [apply existsb_hit, E|].
      intros j s' keywords' Hj. lia.
    + assert (Hmiss : ~ hit keywords items).
      { intros Hhit. apply existsb_hit in Hhit. congruence. }
      destruct IH as (spirit & Escan & [[Hnone Hall]|(i & kws & Hi & Hhit & Hbefore)]).
      * exists spirit. split; [exact Escan|]. left. split; [exact Hnone|].
        intros [|i] s' keywords' Hlook.
        -- injection Hlook as _ <-. exact Hmiss.
        -- exact (Hall i s' keywords' Hlook).
      * exists spirit. split; [exact Escan|]. right. exists (S i), kws.
        split; [exact Hi|]. split; [exact Hhit|].
        intros [|j] s' keywords' Hj Hlook.
        -- injection Hlook as _ <-. exact Hmiss.
        -- apply (Hbefore j s' keywords'); [lia|exact Hlook].
Qed.

(** C9. The spirit type is the first spirit of the table, in the order
    vodka, gin, rum, tequila, whiskey, brandy, one of whose keywords
    occurs in the lowercased name of some ingredient; it is
    "non-alcoholic" when no spirit of the table has such an ingredient. *)
Theorem identify_spirit_type_first_match (items : list pyval) :
  forallb wf_ingredient items = true ->
  spirit_map.*1 = ["vodka"; "gin"; "rum"; "tequila"; "whiskey"; "brandy"]
  /\ exists spirit,
      identify_spirit_type (VList items) = Ok spirit
      /\ ((spirit = "non-alcoholic"
           /\ forall i s keywords,
               spirit_map !! i = Some (s, keywords) -> ~ hit keywords items)
          \/ (exists i keywords,
                 spirit_map !! i = Some (spirit, keywords)
                 /\ hit keywords items
                 /\ forall j s keywords',
                     (j < i)%nat -> spirit_map !! j = Some (s, keywords') ->
                     ~ hit keywords' items)).
Proof.
  intros Hwf. split; [reflexivity|].
  exact (scan_spirits_first spirit_map items Hwf).
Qed.

Lemma identify_spirit_type_first_match_witness :
  exists spirit,
    identify_spirit_type
      (VList [VDict {[ "name" := VStr "Bourbon" ]}; VDict {[ "name" := VStr "Dry Gin" ]}])
    = Ok spirit.
Proof.
  assert (Hwf : forallb wf_ingredient
                  [VDict {[ "name" := VStr "Bourbon" ]};
                   VDict {[ "name" := VStr "Dry Gin" ]}] = true)
    by (vm_compute; reflexivity).
  destruct (identify_spirit_type_first_match _ Hwf) as [_ (spirit & E & _)].
  exists spirit. exact E.
Defined.

(** The order of the table decides, not the order of the ingredients;
    a keyword may sit inside another word. *)
Example rum_then_gin :
  identify_spirit_type
    (VList [VDict {[ "name" := VStr "Dark Rum" ]}; VDict {[ "name" := VStr "Dry Gin" ]}])
  = Ok "gin".
Proof. vm_compute. reflexivity. Qed.

Example ginger_beer :
  identify_spirit_type (VList [VDict {[ "name" := VStr "Ginger Beer" ]}]) = Ok "gin".
Proof. vm_compute. reflexivity. Qed.

Example no_spirit :
  identify_spirit_type (VList [VDict {[ "name" := VStr "Lime Juice" ]}])
  = Ok "non-alcoholic".
Proof. vm_compute. reflexivity. Qed.

(** ** Calorie estimate *)

Lemma calorie_map_values : forallb (fun entry => table_value entry.2) calorie_map = true.
Proof. vm_compute. reflexivity. Qed.

(** The inner loop truncates the product of the amount and the table
    value of the first key found in the name. *)
Lemma first_match_lookup (table : list (string * Z)) (name : string) (amount : float) :
  first_match table name amount
  = match table_lookup table name with
    | Some c => int_of_float (fmul (float_of_Z c) amount)
    | None => Ok 0%Z
    end.
Proof.
  induction table as [|[key c] table IH]; simpl; [reflexivity|].
  destruct (contains key name); [reflexivity|exact IH].
Qed.

Lemma table_lookup_value (table : list (string * Z)) (name : string) (c : Z) :
  forallb (fun entry => table_value entry.2) table = true ->
  table_lookup table name = Some c -> table_value c = true.
Proof.
  intros Ht. induction table as [|[key c'] table IH]; simpl; [discriminate|].
  apply forallb_cons_inv in Ht as [Hc Ht].
  destruct (contains key name); [intros [= <-]; exact Hc|exact (IH Ht)].
Qed.

(** The product of a table value and an amount that is not negative is
    not negative, or it is the NaN of [0 * inf]. *)
Lemma product_nonneg (c : Z) (amount : float) :
  table_value c = true -> nonneg amount = true ->
  nonneg (fmul (float_of_Z c) amount) = true \/ fmul (float_of_Z c) amount = S754_nan.
Proof.
  unfold table_value.
  destruct (float_of_Z c) as [sc|sc| |[|] mc ec]; try discriminate; intros _;
    destruct amount as [sa|[|]| |[|] ma ea]; try discriminate; intros _.
  - left. reflexivity.
  - right. reflexivity.
  - left. reflexivity.
  - left. reflexivity.
  - left. reflexivity.
  - left. unfold fmul, SFmul. simpl xorb. apply binary_round_aux_nonneg. lia.
Qed.

Lemma int_of_product (c : Z) (amount : float) :
  table_value c = true -> nonneg amount = true ->
  if is_finite (fmul (float_of_Z c) amount)
  then exists n, int_of_float (fmul (float_of_Z c) amount) = Ok n /\ (0 <= n)%Z
  else int_of_float (fmul (float_of_Z c) amount) = Raise OverflowError
       \/ int_of_float (fmul (float_of_Z c) amount) = Raise ValueError.
Proof.
  intros Hc Ha. destruct (product_nonneg c amount Hc Ha) as [H|H].
  - destruct (fmul (float_of_Z c) amount) as [s|[|]| |[|] m e]; try discriminate; simpl.
    + exists 0%Z. split; [reflexivity|lia].
    + left. reflexivity.
    + exists (Z.shiftl (Z.pos m) e). split; [reflexivity|].
      apply Z.shiftl_nonneg. lia.
  - rewrite H. right. reflexivity.
Qed.

(** The loop body on an ingredient whose amount converts. *)
Lemma add_calories_amount (total : Z) (v : pyval) (amount : float) :
  wf_ingredient v = true -> amount_of v = Some amount ->
  add_calories total v
  = let* calories := first_match calorie_map (name_of v) amount in
    Ok (total + calories)%Z.
Proof.
  destruct v as [| | | | | |d]; try discriminate. intros Hname Ha.
  unfold add_calories. rewrite (ingredient_name_wf (VDict d) Hname). cbn [bind get].
  unfold amount_of in Ha.
  destruct (py_float (default (VInt 0) (d !! "amount"))) as [x|]; [|discriminate].
  injection Ha as ->. reflexivity.
Qed.

Lemma add_calories_nonneg (total : Z) (v : pyval) :
  nonneg_amount v = true ->
  if finite_product v
  then exists n, add_calories total v = Ok (total + n)%Z /\ (0 <= n)%Z
  else add_calories total v = Raise OverflowError
       \/ add_calories total v = Raise ValueError.
Proof.
  unfold nonneg_amount. intros H. apply andb_true_iff in H as [Hwf Ha].
  destruct (amount_of v) as [amount|] eqn:Ea; [|discriminate].
  rewrite (add_calories_amount total v amount Hwf Ea), first_match_lookup.
  unfold finite_product, product_of. rewrite Ea.
  destruct (table_lookup calorie_map (name_of v)) as [c|] eqn:Ec.
  - pose proof (int_of_product c amount
                  (table_lookup_value _ _ _ calorie_map_values Ec) Ha) as Hp.
    destruct (is_finite (fmul (float_of_Z c) amount)).
    + destruct Hp as (n & -> & Hn). exists n. split; [reflexivity|exact Hn].
    + destruct Hp as [-> | ->]; auto.
  - exists 0%Z. split; [reflexivity|lia].
Qed.

Lemma calorie_loop_nonneg (items : list pyval) :
  forallb nonneg_amount items = true ->
  forall total, (0 <= total)%Z ->
  if forallb finite_product items
  then exists n, for_each add_calories items total = Ok n /\ (0 <= n)%Z
  else for_each add_calories items total = Raise OverflowError
       \/ for_each add_calories items total = Raise ValueError.
Proof.
  induction items as [|v items IH]; intros Hwf total Ht.
  - exists total. split; [reflexivity|exact Ht].
  - apply forallb_cons_inv in Hwf as [Hv Hitems]. cbn [forallb for_each].
    pose proof (add_calories_nonneg total v Hv) as Hstep.
    destruct (finite_product v); cbn [andb].
    + destruct Hstep as (n & -> & Hn). cbn [bind]. apply (IH Hitems). lia.
    + destruct Hstep as [-> | ->]; auto.
Qed.

(** C4, amended. For every list of ingredients whose amounts are absent
    or convert, and are not negative for the ingredients found in the
    calorie table, the estimate is never negative.  When every product
    [calories_per_oz * amount] is finite the estimator returns an
    integer greater than or equal to 0; otherwise a product is infinite
    or a NaN and [int()] raises [OverflowError] or [ValueError]. *)
Theorem estimate_calories_nonneg (items : list pyval) :
  forallb nonneg_amount items = true ->
  (forall n, estimate_calories (VList items) = Ok n -> (0 <= n)%Z)
  /\ (forallb finite_product items = true ->
      exists n, estimate_calories (VList items) = Ok n /\ (0 <= n)%Z)
  /\ (forallb finite_product items = false ->
      estimate_calories (VList items) = Raise OverflowError
      \/ estimate_calories (VList items) = Raise ValueError).
Proof.
  intros Hwf. unfold estimate_calories, iter. cbn [bind].
  pose proof (calorie_loop_nonneg items Hwf 0%Z ltac:(lia)) as Hloop.
  destruct (forallb finite_product items).
  - destruct Hloop as (n & -> & Hn).
    split; [intros n' [= <-]; exact Hn|]. split; [eauto|discriminate].
  - split; [intros n E; destruct Hloop as [H|H]; rewrite H in E; discriminate E|].
    split; [discriminate|intros _; exact Hloop].
Qed.

Lemma estimate_calories_nonneg_witness :
  exists n, estimate_calories (VList rum_by_the_sea) = Ok n /\ (0 <= n)%Z.
Proof.
  assert (Hwf : forallb nonneg_amount rum_by_the_sea = true) by (vm_compute; reflexivity).
  assert (Hfin : forallb finite_product rum_by_the_sea = true)
    by (vm_compute; reflexivity).
  exact (proj1 (proj2 (estimate_calories_nonneg rum_by_the_sea Hwf)) Hfin).
Defined.

(** C4 as stated fails: a negative amount gives a negative estimate. *)
Lemma estimate_calories_negative :
  let items := VList [VDict {[ "name" := VStr "Rum"; "amount" := VInt (-1) ]}] in
  estimate_calories items = Ok (-97)%Z
  /\ ~ (exists n, estimate_calories items = Ok n /\ (0 <= n)%Z).
Proof.
  assert (E : estimate_calories
                (VList [VDict {[ "name" := VStr "Rum"; "amount" := VInt (-1) ]}])
              = Ok (-97)%Z) by (vm_compute; reflexivity).
  split; [exact E|]. intros (n & En & Hn). rewrite E in En.
  injection En as <-. lia.
Qed.

(** Amounts far above any measure are estimated as long as the product
    is a double; the blanks [float()] skips are C's. *)
Example estimate_calories_huge_amount :
  estimate_calories (VList rum_by_the_sea) = Ok (97 * 2 ^ 1000)%Z.
Proof. vm_compute. reflexivity. Qed.

Example float_of_separator :
  py_float (VStr (String (ascii_of_nat 28) "2")) = Raise ValueError
  /\ py_float (VStr (String (ascii_of_nat 9) "2 ")) = Ok (float_of_Z 2).
Proof. split; vm_compute; reflexivity. Qed.

(** *** Missing and malformed amounts *)

Lemma for_each_app {A S : Type} (body : S -> A -> result S) (l1 l2 : list A) (acc : S) :
  for_each body (l1 ++ l2) acc
  = let* acc' := for_each body l1 acc in for_each body l2 acc'.
Proof.
  revert acc. induction l1 as [|x l1 IH]; intros acc; simpl; [reflexivity|].
  destruct (body acc x) as [acc'|e]; simpl; [apply IH|reflexivity].
Qed.

Lemma first_match_zero (name : string) :
  first_match calorie_map name (S754_zero false) = Ok 0%Z.
Proof.
  unfold calorie_map, first_match.
  repeat (destruct (contains _ name); [vm_compute; reflexivity|]). reflexivity.
Qed.

Lemma add_calories_absent (total : Z) (d : gmap string pyval) :
  is_text (d !! "name") = true -> d !! "amount" = None ->
  add_calories total (VDict d) = Ok total.
Proof.
  intros Hname Hamount. unfold add_calories.
  rewrite (ingredient_name_wf (VDict d) Hname). cbn [bind get].
  rewrite Hamount. simpl (default _ _).
  change (py_float (VInt 0)) with (Ok (S754_zero false)).
  cbn [bind]. rewrite first_match_zero. cbn [bind]. f_equal. lia.
Qed.

Lemma add_calories_malformed (total : Z) (d : gmap string pyval) (raw : pyval) (e : exn) :
  is_text (d !! "name") = true -> d !! "amount" = Some raw -> py_float raw = Raise e ->
  add_calories total (VDict d) = Raise e.
Proof.
  intros Hname Hamount Hraw. unfold add_calories.
  rewrite (ingredient_name_wf (VDict d) Hname). cbn [bind get].
  rewrite Hamount. simpl (default _ _). rewrite Hraw. reflexivity.
Qed.

(** C2, amended. An ingredient whose [amount] is absent is estimated
    with the amount 0: it adds 0 to the total and the estimate of the
    list is the estimate of the list without it.  An [amount] that is
    present and that [float()] rejects (a non-numeric string, null, a
    list, an object) is not replaced by 0: the exception of [float()]
    leaves the estimator. *)
Theorem estimate_calories_amount_default
    (before after : list pyval) (d : gmap string pyval) :
  is_text (d !! "name") = true ->
  (d !! "amount" = None ->
   (forall total, add_calories total (VDict d) = Ok total)
   /\ estimate_calories (VList (before ++ VDict d :: after))
      = estimate_calories (VList (before ++ after)))
  /\ (forall raw e total,
        d !! "amount" = Some raw -> py_float raw = Raise e ->
        for_each add_calories before 0%Z = Ok total ->
        estimate_calories (VList (before ++ VDict d :: after)) = Raise e).
Proof.
  intros Hname. split.
  - intros Hamount. split.
    + intros total. exact (add_calories_absent total d Hname Hamount).
    + unfold estimate_calories, iter. cbn [bind]. rewrite !for_each_app.
      destruct (for_each add_calories before 0%Z) as [total|e]; [|reflexivity].
      cbn [bind for_each]. rewrite (add_calories_absent total d Hname Hamount).
      reflexivity.
  - intros raw e total Hamount Hraw Hbefore.
    unfold estimate_calories, iter. cbn [bind]. rewrite for_each_app, Hbefore.
    cbn [bind for_each]. rewrite (add_calories_malformed total d raw e Hname Hamount Hraw).
    reflexivity.
Qed.

Lemma estimate_calories_amount_default_witness :
  estimate_calories
    (VList ([VDict {[ "name" := VStr "Gin"; "amount" := VInt 2 ]}]
            ++ VDict {[ "name" := VStr "Vodka" ]} :: []))
  = estimate_calories
      (VList ([VDict {[ "name" := VStr "Gin"; "amount" := VInt 2 ]}] ++ [])).
Proof.
  assert (Hname : is_text (({[ "name" := VStr "Vodka" ]} : gmap string pyval) !! "name")
                  = true) by (vm_compute; reflexivity).
  assert (Hamount : ({[ "name" := VStr "Vodka" ]} : gmap string pyval) !! "amount" = None)
    by (vm_compute; reflexivity).
  exact (proj2 (proj1 (estimate_calories_amount_default
                         [VDict {[ "name" := VStr "Gin"; "amount" := VInt 2 ]}] []
                         {[ "name" := VStr "Vodka" ]} Hname) Hamount)).
Defined.

(** C2 as stated fails: an amount that is not a number is fatal. *)
Lemma estimate_calories_unparsable_amount :
  let items := VList [VDict {[ "name" := VStr "Rum"; "amount" := VStr "two" ]}] in
  py_float (VStr "two") = Raise ValueError
  /\ estimate_calories items = Raise ValueError
  /\ estimate_calories items <> Ok 0%Z.
Proof. repeat split; [vm_compute; reflexivity ..|discriminate]. Qed.

(** ** Tags *)

Lemma text_field (o : option pyval) :
  is_text o = true -> py_lower (default (VStr "") o) = Ok (lower (text_of o)).
Proof. destruct o as [[]|]; try discriminate; reflexivity. Qed.

Lemma ingredients_field (o : option pyval) :
  wf_ingredients o = true ->
  exists items, default (VList []) o = VList items
                /\ forallb wf_ingredient items = true.
Proof.
  destruct o as [[]|]; try discriminate; simpl; intros H.
  - eexists. split; [reflexivity|exact H].
  - exists []. split; reflexivity.
Qed.

Lemma wf_recipe_fields (d : gmap string pyval) :
  wf_recipe d = true ->
  wf_ingredients (d !! "ingredients") = true /\ is_text (d !! "instructions") = true
  /\ is_text (d !! "category") = true /\ is_text (d !! "glass") = true.
Proof.
  unfold wf_recipe. intros H.
  apply andb_true_iff in H as [H Hg]. apply andb_true_iff in H as [H Hc].
  apply andb_true_iff in H as [Hi Ht]. auto.
Qed.

Lemma spirit_in_table (items : list pyval) :
  forallb wf_ingredient items = true ->
  exists spirit, identify_spirit_type (VList items) = Ok spirit
                 /\ (spirit = "non-alcoholic" \/ spirit ∈ spirit_map.*1).
Proof.
  intros Hwf.
  destruct (scan_spirits_first spirit_map items Hwf)
    as (spirit & E & [[Hnone _]|(i & kws & Hi & _)]);
    exists spirit; (split; [exact E|]); [left; exact Hnone|right].
  apply list_elem_of_fmap. exists (spirit, kws). split; [reflexivity|].
  apply list_elem_of_lookup. exists i. exact Hi.
Qed.

Lemma elem_of_push_if (b : bool) (tags : list string) (x t : string) :
  t ∈ (if b then (tags ++ [x])%list else tags) -> t ∈ tags \/ (b = true /\ t = x).
Proof.
  destruct b; [|auto]. rewrite elem_of_app, list_elem_of_singleton. tauto.
Qed.

Lemma elem_of_push_unless (b : bool) (tags : list string) (x t : string) :
  t ∈ (if b then tags else (tags ++ [x])%list) -> t ∈ tags \/ (b = false /\ t = x).
Proof.
  destruct b; [auto|]. rewrite elem_of_app, list_elem_of_singleton. tauto.
Qed.

Lemma levels_inv (t : string) :
  t ∈ levels -> t = "simple" \/ t = "intermediate" \/ t = "complex".
Proof. unfold levels. rewrite !elem_of_cons, elem_of_nil. tauto. Qed.

Lemma spirit_names_inv (s : string) :
  s ∈ spirit_map.*1 ->
  s = "vodka" \/ s = "gin" \/ s = "rum" \/ s = "tequila" \/ s = "whiskey" \/ s = "brandy".
Proof.
  change (spirit_map.*1) with ["vodka"; "gin"; "rum"; "tequila"; "whiskey"; "brandy"].
  rewrite !elem_of_cons, elem_of_nil. tauto.
Qed.

(** Closes a goal with a hypothesis that a word which is not a level is
    one. *)
Ltac not_a_level H :=
  apply levels_inv in H; destruct H as [H|[H|H]]; discriminate H.

Lemma elem_of_dedupe (tags : list string) (t : string) : t ∈ dedupe tags <-> t ∈ tags.
Proof. unfold dedupe. rewrite elem_of_elements, elem_of_list_to_set. reflexivity. Qed.

Lemma elem_of_push_if_keep (b : bool) (tags : list string) (x t : string) :
  t ∈ tags -> t ∈ (if b then (tags ++ [x])%list else tags).
Proof. destruct b; [|auto]. rewrite elem_of_app. auto. Qed.

Lemma elem_of_push_unless_keep (b : bool) (tags : list string) (x t : string) :
  t ∈ tags -> t ∈ (if b then tags else (tags ++ [x])%list).
Proof. destruct b; [auto|]. rewrite elem_of_app. auto. Qed.

Lemma elem_of_push_unless_new (tags : list string) (t : string) :
  t ∈ levels -> t ∈ (if String.eqb t "" then tags else (tags ++ [t])%list).
Proof.
  intros Hlevel. destruct (String.eqb_spec t "") as [->|_].
  - apply levels_inv in Hlevel. destruct Hlevel as [H|[H|H]]; discriminate H.
  - apply elem_of_app. right. apply list_elem_of_singleton. reflexivity.
Qed.

(** C3, amended. For every recipe the tag list has no duplicates and
    contains the level of the recomputed complexity score: "simple"
    below 3, "intermediate" below 6, "complex" otherwise.  A word of
    simple, intermediate, complex is in the tags exactly when it is
    that level, the lowercased category or the lowercased glass; so the
    level is the only one unless the category or the glass is itself
    named like another level. *)
Theorem generate_tags_level (d : gmap string pyval) :
  wf_recipe d = true ->
  exists tags score,
    generate_tags (VDict d) = Ok tags
    /\ calculate_complexity_score (default (VList []) (d !! "ingredients")) = Ok score
    /\ NoDup tags
    /\ complexity_tag score ∈ tags
    /\ complexity_tag score
       = (if fltb score (float_of_Z 3) then "simple"
          else if fltb score (float_of_Z 6) then "intermediate" else "complex")
    /\ (forall t, t ∈ levels ->
          (t ∈ tags
           <-> t = complexity_tag score
               \/ t = lower (text_of (d !! "category"))
               \/ t = lower (text_of (d !! "glass"))))
    /\ (lower (text_of (d !! "category")) ∉ levels ->
        lower (text_of (d !! "glass")) ∉ levels ->
        forall t, t ∈ tags -> t ∈ levels -> t = complexity_tag score).
Proof.
  intros Hwf. apply wf_recipe_fields in Hwf as (Hi & Ht & Hc & Hg).
  destruct (ingredients_field _ Hi) as (items & Eitems & Hitems).
  destruct (spirit_in_table items Hitems) as (spirit & Espirit & Hspirit).
  destruct (complexity_score_nonneg items Hitems) as (score & Escore & _).
  unfold generate_tags. cbn [get bind].
  rewrite (text_field _ Hc), (text_field _ Hg), (text_field _ Ht). cbn [bind].
  rewrite Eitems, Espirit, Escore. cbn [bind].
  eexists. exists score. split; [reflexivity|]. split; [reflexivity|].
  split; [unfold dedupe; apply NoDup_elements|].
  split; [apply elem_of_dedupe, elem_of_app; right; apply list_elem_of_singleton;
          reflexivity|].
  split; [reflexivity|].
  assert (Hlevels : forall t, t ∈ levels ->
            t ∈ dedupe
                  (collected_tags (lower (text_of (d !! "category")))
                     (lower (text_of (d !! "glass"))) spirit
                     (lower (text_of (d !! "instructions"))) (complexity_tag score))
            -> t = complexity_tag score
               \/ t = lower (text_of (d !! "category"))
               \/ t = lower (text_of (d !! "glass"))).
  { intros t Hlevel Hin. unfold collected_tags in Hin.
    apply elem_of_dedupe, elem_of_app in Hin as [Hin|Hin];
      [|apply list_elem_of_singleton in Hin; auto].
    apply elem_of_push_if in Hin as [Hin|[_ ->]]; [|not_a_level Hlevel].
    apply elem_of_push_if in Hin as [Hin|[_ ->]]; [|not_a_level Hlevel].
    apply elem_of_push_if in Hin as [Hin|[_ ->]]; [|not_a_level Hlevel].
    apply elem_of_push_unless in Hin as [Hin|[Hne ->]].
    - apply elem_of_push_unless in Hin as [Hin|[_ ->]]; [|auto].
      apply elem_of_push_unless in Hin as [Hin|[_ ->]]; [|auto].
      apply elem_of_nil in Hin. destruct Hin.
    - destruct Hspirit as [->|Hspirit]; [discriminate|].
      apply spirit_names_inv in Hspirit.
      destruct Hspirit as [->|[->|[->|[->|[->| ->]]]]]; not_a_level Hlevel. }
  split.
  - intros t Hlevel. split; [exact (Hlevels t Hlevel)|].
    intros Hcase. apply elem_of_dedupe, elem_of_app.
    destruct Hcase as [->|[->| ->]].
    + right. apply list_elem_of_singleton. reflexivity.
    + left. do 3 apply elem_of_push_if_keep. do 2 apply elem_of_push_unless_keep.
      apply elem_of_push_unless_new, Hlevel.
    + left. do 3 apply elem_of_push_if_keep. apply elem_of_push_unless_keep.
      apply elem_of_push_unless_new, Hlevel.
  - intros Hcat Hglass t Hin Hlevel.
    destruct (Hlevels t Hlevel Hin) as [E|[->| ->]]; [exact E| |].
    + destruct (Hcat Hlevel).
    + destruct (Hglass Hlevel).
Qed.

Lemma generate_tags_level_witness :
  exists tags score,
    generate_tags (VDict mojito) = Ok tags
    /\ NoDup tags
    /\ complexity_tag score ∈ tags
    /\ (forall t, t ∈ tags -> t ∈ levels -> t = complexity_tag score).
Proof.
  assert (Hwf : wf_recipe mojito = true) by (vm_compute; reflexivity).
  destruct (generate_tags_level mojito Hwf)
    as (tags & score & E & _ & Hnodup & Hin & _ & _ & Hone).
  exists tags, score. split; [exact E|]. split; [exact Hnodup|]. split; [exact Hin|].
  apply Hone; intros H; apply levels_inv in H; vm_compute in H;
    destruct H as [H|[H|H]]; discriminate H.
Defined.

(** C3 as stated fails: a category named like a level puts two levels
    in the tags. *)
Lemma generate_tags_two_levels :
  exists tags,
    generate_tags (VDict {[ "category" := VStr "Complex" ]}) = Ok tags
    /\ "simple" ∈ tags /\ "complex" ∈ tags /\ "simple" ∈ levels /\ "complex" ∈ levels.
Proof.
  exists ["simple"; "complex"]. split; [vm_compute; reflexivity|].
  unfold levels. rewrite !elem_of_cons. tauto.
Qed.

(** A category named like the level of the recipe leaves one level in
    the tags. *)
Example generate_tags_one_level :
  generate_tags (VDict {[ "category" := VStr "Simple" ]}) = Ok ["simple"].
Proof. vm_compute. reflexivity. Qed.

(** ** The record enricher as a function of the record

    The enricher, run on the store, computes [derive] and allocates
    [attach]. *)

(** *** Steps on the store *)

Lemma fresh_not_allocated (h : gmap loc pyval) (l : loc) (v : pyval) :
  h !! l = Some v -> l <> fresh (dom h).
Proof.
  intros Hl ->. apply (is_fresh (dom h)). apply elem_of_dom. eauto.
Qed.

Lemma setitem_dict (l : loc) (key : string) (v : pyval)
    (d : gmap string pyval) (h : gmap loc pyval) (t : nat) :
  setitem l key v (mkState (<[l := VDict d]> h) t)
  = (Ok tt, mkState (<[l := VDict (<[key := v]> d)]> h) t).
Proof.
  unfold setitem, bindM, deref. cbn [heap ticks]. rewrite lookup_insert_eq.
  cbn [heap ticks]. rewrite insert_insert_eq. reflexivity.
Qed.

Lemma get_at_dict (l : loc) (key : string) (fallback : pyval)
    (d : gmap string pyval) (h : gmap loc pyval) (t : nat) :
  get_at l key fallback (mkState (<[l := VDict d]> h) t)
  = (Ok (default fallback (d !! key)), mkState (<[l := VDict d]> h) t).
Proof.
  unfold get_at, bindM, deref. cbn [heap ticks]. rewrite lookup_insert_eq. reflexivity.
Qed.

Lemma deref_other (l l' : loc) (v v' : pyval) (h : gmap loc pyval) (t : nat) :
  l' <> l -> h !! l = Some v ->
  deref l (mkState (<[l' := v']> h) t) = (Ok v, mkState (<[l' := v']> h) t).
Proof.
  intros Hne Hl. unfold deref. cbn [heap ticks]. rewrite lookup_insert_ne by exact Hne.
  rewrite Hl. reflexivity.
Qed.

Lemma copy_dict (l : loc) (d : gmap string pyval) (h : gmap loc pyval) (t : nat) :
  h !! l = Some (VDict d) ->
  copy l (mkState h t) = (Ok (fresh (dom h)), mkState (<[fresh (dom h) := VDict d]> h) t).
Proof.
  intros Hl. unfold copy, bindM, deref. cbn [heap ticks]. rewrite Hl. reflexivity.
Qed.

(** Runs the next [lift]ed deriver of the enricher, on both sides. *)
Ltac run_deriver :=
  match goal with
  | |- context [lift ?r ?st] =>
      change (lift r st) with (r, st);
      let E := fresh "E" in
      destruct r eqn:E; cbn [bind]; cbv beta iota; [|eexists _, _; reflexivity]
  end.

Ltac run_setitem := rewrite setitem_dict; cbv beta iota.

(** The enricher allocates one record: the copy with the derived values
    attached; it raises exactly when a deriver does, and then leaves a
    partly enriched copy behind. *)
Lemma enrich_single_cocktail_dict (w : world) (l : loc) (d : gmap string pyval)
    (h : gmap loc pyval) (t : nat) :
  h !! l = Some (VDict d) ->
  match derive d with
  | Ok f =>
      enrich_single_cocktail w l (mkState h t)
      = (Ok (fresh (dom h)),
         mkState (<[fresh (dom h) := VDict (attach (isoformat w t) f d)]> h) (S t))
  | Raise e =>
      exists e' t',
        enrich_single_cocktail w l (mkState h t)
        = (Raise e, mkState (<[fresh (dom h) := VDict e']> h) t')
  end.
Proof.
  intros Hl. pose proof (fresh_not_allocated h l _ Hl) as Hne.
  unfold enrich_single_cocktail, bindM.
  rewrite (copy_dict l d h t Hl). cbv beta iota.
  unfold datetime_now. cbn [heap ticks]. cbv beta iota.
  run_setitem.
  rewrite get_at_dict. cbv beta iota.
  rewrite lookup_insert_ne by discriminate.
  unfold derive.
  run_deriver. run_setitem.
  run_deriver. run_setitem.
  rewrite get_at_dict. cbv beta iota.
  rewrite !lookup_insert_ne by discriminate.
  run_deriver. run_setitem.
  run_deriver. run_setitem.
  run_deriver. run_deriver. run_setitem.
  run_deriver. run_setitem.
  run_deriver. run_setitem.
  rewrite (deref_other l _ (VDict d)) by (auto using not_eq_sym). cbv beta iota.
  run_deriver. run_setitem.
  reflexivity.
Qed.

(** *** What the derived values depend on *)

Lemma agree_on_base (d1 d2 : gmap string pyval) :
  agree_on base_fields d1 d2 ->
  d1 !! "ingredients" = d2 !! "ingredients"
  /\ d1 !! "instructions" = d2 !! "instructions"
  /\ d1 !! "category" = d2 !! "category"
  /\ d1 !! "glass" = d2 !! "glass".
Proof.
  intros H. unfold agree_on, base_fields in H.
  repeat split; apply H; rewrite !elem_of_cons; tauto.
Qed.

Lemma generate_tags_ext (d1 d2 : gmap string pyval) :
  agree_on base_fields d1 d2 -> generate_tags (VDict d1) = generate_tags (VDict d2).
Proof.
  intros H. apply agree_on_base in H as (Hi & Ht & Hc & Hg).
  unfold generate_tags, get. rewrite Hi, Ht, Hc, Hg. reflexivity.
Qed.

Lemma derive_ext (d1 d2 : gmap string pyval) :
  agree_on base_fields d1 d2 -> derive d1 = derive d2.
Proof.
  intros H. pose proof (generate_tags_ext d1 d2 H) as Htags.
  apply agree_on_base in H as (Hi & Ht & _ & _).
  unfold derive. rewrite Hi, Ht, Htags. reflexivity.
Qed.

Lemma attach_base (stamp : string) (f : derived) (d : gmap string pyval) (k : string) :
  k ∉ derived_fields -> attach stamp f d !! k = d !! k.
Proof.
  intros Hk. unfold derived_fields in Hk. rewrite !not_elem_of_cons in Hk.
  unfold attach. rewrite !lookup_insert_ne by (intros <-; tauto). reflexivity.
Qed.

Lemma base_not_derived (k : string) : k ∈ base_fields -> k ∉ derived_fields.
Proof.
  unfold base_fields, derived_fields. intros H.
  rewrite !elem_of_cons, elem_of_nil in H.
  destruct H as [->|[->|[->|[->|[]]]]]; rewrite !not_elem_of_cons; repeat split;
    solve [discriminate | apply not_elem_of_nil].
Qed.

Lemma attach_agree (stamp : string) (f : derived) (d : gmap string pyval) :
  agree_on base_fields (attach stamp f d) d.
Proof. intros k Hk. apply attach_base, base_not_derived, Hk. Qed.

(** The values under the derived names, the timestamp apart. *)
Lemma attach_derived (stamp : string) (f : derived) (d : gmap string pyval) :
  attach stamp f d !! "enriched_at" = Some (VStr stamp)
  /\ attach stamp f d !! "ingredient_count" = Some (VInt (ingredient_count f))
  /\ attach stamp f d !! "complexity_score" = Some (VFloat (complexity_score f))
  /\ attach stamp f d !! "instruction_word_count" = Some (VInt (instruction_word_count f))
  /\ attach stamp f d !! "estimated_prep_time" = Some (VInt (estimated_prep_time f))
  /\ attach stamp f d !! "is_alcoholic" = Some (VBool (is_alcoholic f))
  /\ attach stamp f d !! "spirit_type" = Some (VStr (spirit_type f))
  /\ attach stamp f d !! "estimated_calories" = Some (VInt (estimated_calories f))
  /\ attach stamp f d !! "tags" = Some (VList (VStr <$> tags f)).
Proof.
  unfold attach.
  repeat split;
    repeat (rewrite lookup_insert_ne by discriminate); apply lookup_insert_eq.
Qed.

Lemma attach_same_derived (s1 s2 : string) (f : derived) (d1 d2 : gmap string pyval)
    (k : string) :
  k ∈ derived_fields -> k <> "enriched_at" ->
  attach s1 f d1 !! k = attach s2 f d2 !! k.
Proof.
  intros Hk Hne.
  destruct (attach_derived s1 f d1) as (_ & A1 & A2 & A3 & A4 & A5 & A6 & A7 & A8).
  destruct (attach_derived s2 f d2) as (_ & B1 & B2 & B3 & B4 & B5 & B6 & B7 & B8).
  unfold derived_fields in Hk. rewrite !elem_of_cons, elem_of_nil in Hk.
  destruct Hk as [->|[->|[->|[->|[->|[->|[->|[->|[->|[]]]]]]]]]]; congruence.
Qed.

(** *** Recipes the enricher accepts *)

Lemma text_default (o : option pyval) :
  is_text o = true -> default (VStr "") o = VStr (text_of o).
Proof. destruct o as [[]|]; try discriminate; reflexivity. Qed.

Lemma generate_tags_total (d : gmap string pyval) :
  wf_recipe d = true -> exists labels, generate_tags (VDict d) = Ok labels.
Proof.
  intros Hwf. apply wf_recipe_fields in Hwf as (Hi & Ht & Hc & Hg).
  destruct (ingredients_field _ Hi) as (items & Eitems & Hitems).
  destruct (spirit_in_table items Hitems) as (spirit & Espirit & _).
  destruct (complexity_score_nonneg items Hitems) as (score & Escore & _).
  unfold generate_tags. cbn [get bind].
  rewrite (text_field _ Hc), (text_field _ Hg), (text_field _ Ht). cbn [bind].
  rewrite Eitems, Espirit, Escore. cbn [bind].
  eexists. reflexivity.
Qed.

Lemma py_float_raises (v : pyval) (e : exn) :
  py_float v = Raise e -> conversion_error e.
Proof.
  unfold conversion_error. destruct v as [|b|z|f|s|items|d]; simpl.
  - intros [= <-]. auto.
  - discriminate.
  - destruct (is_finite (float_of_Z z)); [discriminate|intros [= <-]; auto].
  - discriminate.
  - destruct (float_of_string s); [discriminate|intros [= <-]; auto].
  - intros [= <-]. auto.
  - intros [= <-]. auto.
Qed.

Lemma add_calories_priced (total : Z) (v : pyval) :
  wf_ingredient v = true ->
  if priced v
  then exists n, add_calories total v = Ok n
  else exists e, add_calories total v = Raise e /\ conversion_error e.
Proof.
  intros Hwf. unfold priced. destruct (amount_of v) as [amount|] eqn:Ea.
  - rewrite (add_calories_amount total v amount Hwf Ea), first_match_lookup.
    unfold finite_product, product_of. rewrite Ea.
    destruct (table_lookup calorie_map (name_of v)) as [c|]; [|eexists; reflexivity].
    unfold conversion_error.
    destruct (fmul (float_of_Z c) amount) as [s|s| |s m e]; simpl; eauto 6.
  - destruct v as [| | | | | |d]; try discriminate.
    unfold add_calories. rewrite (ingredient_name_wf (VDict d) Hwf). cbn [bind get].
    unfold amount_of in Ea.
    destruct (py_float (default (VInt 0) (d !! "amount"))) as [x|e] eqn:Ef;
      [discriminate|].
    exists e. split; [reflexivity|exact (py_float_raises _ e Ef)].
Qed.

Lemma calorie_loop_priced (items : list pyval) :
  forallb wf_ingredient items = true ->
  forall total,
  if forallb priced items
  then exists n, for_each add_calories items total = Ok n
  else exists e, for_each add_calories items total = Raise e /\ conversion_error e.
Proof.
  induction items as [|v items IH]; intros Hwf total.
  - exists total. reflexivity.
  - apply forallb_cons_inv in Hwf as [Hv Hitems]. cbn [forallb for_each].
    pose proof (add_calories_priced total v Hv) as Hstep.
    destruct (priced v); cbn [andb].
    + destruct Hstep as (n & ->). cbn [bind]. apply (IH Hitems).
    + destruct Hstep as (e & -> & He). exists e. split; [reflexivity|exact He].
Qed.

Lemma priced_field (o : option pyval) :
  wf_ingredients o = true ->
  exists items, default (VList []) o = VList items
                /\ forallb wf_ingredient items = true
                /\ priced_ingredients o = forallb priced items.
Proof.
  destruct o as [[]|]; try discriminate; simpl; intros H.
  - eexists. split; [reflexivity|]. split; [exact H|reflexivity].
  - exists []. repeat split.
Qed.

(** On a well-formed recipe only the calorie estimate can raise. *)
Lemma derive_wf (d : gmap string pyval) :
  wf_recipe d = true ->
  match estimate_calories (default (VList []) (d !! "ingredients")) with
  | Ok _ => exists f, derive d = Ok f
  | Raise e => derive d = Raise e
  end.
Proof.
  intros Hwf. destruct (generate_tags_total d Hwf) as (labels & Elabels).
  apply wf_recipe_fields in Hwf as (Hi & Ht & _ & _).
  destruct (ingredients_field _ Hi) as (items & Eitems & Hwfi).
  destruct (complexity_score_nonneg items Hwfi) as (score & Escore & _).
  destruct (spirit_in_table items Hwfi) as (spirit & Espirit & _).
  unfold derive. rewrite Eitems, (text_default _ Ht). cbn [len bind].
  rewrite Escore. cbn [bind estimate_prep_time iter].
  rewrite (comprehension_names items Hwfi). cbn [bind].
  rewrite Espirit. cbn [bind].
  destruct (estimate_calories (VList items)) as [calories|e]; cbn [bind]; [|reflexivity].
  rewrite Elabels. cbn [bind]. eexists. reflexivity.
Qed.

Lemma derive_total (d : gmap string pyval) :
  wf_recipe d = true ->
  if priced_ingredients (d !! "ingredients")
  then exists f, derive d = Ok f
  else exists e, derive d = Raise e /\ conversion_error e.
Proof.
  intros Hwf. pose proof (derive_wf d Hwf) as Hd.
  apply wf_recipe_fields in Hwf as (Hi & _).
  destruct (priced_field _ Hi) as (items & Eitems & Hwfi & ->).
  rewrite Eitems in Hd. unfold estimate_calories, iter in Hd. cbn [bind] in Hd.
  pose proof (calorie_loop_priced items Hwfi 0%Z) as Hloop.
  destruct (forallb priced items).
  - destruct Hloop as (n & E). rewrite E in Hd. exact Hd.
  - destruct Hloop as (e & E & He). rewrite E in Hd. eauto.
Qed.

(** ** The record enricher *)

(** C8, amended. The enricher never changes the store outside the one
    record it allocates: the source record is as before, whether the
    enricher returns or raises.  What it returns is a new record, which
    has every field of the source that does not bear a derived name,
    the base fields among them, with its value, and every derived
    field.  It does not return for every recipe: a well-formed recipe
    is enriched exactly when [float()] converts every amount that is
    present and every product [calories_per_oz * amount] is finite;
    otherwise the exception of [float()] or [int()] leaves the
    enricher. *)
Theorem enrich_single_cocktail_frame (w : world) (l : loc) (d : gmap string pyval)
    (h : gmap loc pyval) (t : nat) :
  h !! l = Some (VDict d) ->
  let outcome := enrich_single_cocktail w l (mkState h t) in
  heap outcome.2 !! l = Some (VDict d)
  /\ (forall l0, l0 <> fresh (dom h) -> heap outcome.2 !! l0 = h !! l0)
  /\ (forall l', outcome.1 = Ok l' ->
        h !! l' = None
        /\ exists e,
            heap outcome.2 !! l' = Some (VDict e)
            /\ (forall k, k ∉ derived_fields -> e !! k = d !! k)
            /\ (forall k, k ∈ base_fields -> e !! k = d !! k)
            /\ (forall k, k ∈ derived_fields -> is_Some (e !! k)))
  /\ (enrichable d = true -> exists l', outcome.1 = Ok l')
  /\ (wf_recipe d = true -> enrichable d = false ->
      exists e, outcome.1 = Raise e /\ conversion_error e).
Proof.
  intros Hl outcome. pose proof (enrich_single_cocktail_dict w l d h t Hl) as Hrun.
  pose proof (fresh_not_allocated h l _ Hl) as Hne.
  assert (Hframe : forall v t' l0, l0 <> fresh (dom h) ->
             heap (mkState (<[fresh (dom h) := v]> h) t') !! l0 = h !! l0).
  { intros v t' l0 Hl0. cbn [heap]. apply lookup_insert_ne. auto using not_eq_sym. }
  assert (Hreturns : enrichable d = true -> exists f, derive d = Ok f).
  { unfold enrichable. intros H. apply andb_true_iff in H as [Hwf Hp].
    pose proof (derive_total d Hwf) as Hd. rewrite Hp in Hd. exact Hd. }
  assert (Hraises : wf_recipe d = true -> enrichable d = false ->
                    exists e, derive d = Raise e /\ conversion_error e).
  { unfold enrichable. intros Hwf H. pose proof (derive_total d Hwf) as Hd.
    rewrite Hwf in H. cbn [andb] in H. rewrite H in Hd. exact Hd. }
  destruct (derive d) as [f|x] eqn:Ef.
  - subst outcome. rewrite Hrun. cbn [fst snd].
    split; [rewrite Hframe by exact Hne; exact Hl|].
    split; [intros l0 Hl0; apply Hframe, Hl0|].
    split; [|split; [eauto|]].
    + intros l' [= <-]. split; [apply not_elem_of_dom, is_fresh|].
      eexists. split; [apply lookup_insert_eq|].
      split; [intros k Hk; apply attach_base, Hk|].
      split; [intros k Hk; apply attach_base, base_not_derived, Hk|].
      intros k Hk.
      destruct (attach_derived (isoformat w t) f d)
        as (A0 & A1 & A2 & A3 & A4 & A5 & A6 & A7 & A8).
      unfold derived_fields in Hk. rewrite !elem_of_cons, elem_of_nil in Hk.
      destruct Hk as [->|[->|[->|[->|[->|[->|[->|[->|[->|[]]]]]]]]]]; eauto.
    + intros Hwf Hd. destruct (Hraises Hwf Hd) as (e & E & _). discriminate E.
  - destruct Hrun as (e' & t' & Hrun). subst outcome. rewrite Hrun. cbn [fst snd].
    split; [rewrite Hframe by exact Hne; exact Hl|].
    split; [intros l0 Hl0; apply Hframe, Hl0|].
    split; [intros l' [=]|].
    split.
    + intros Hd. destruct (Hreturns Hd) as (f & Ef'). discriminate Ef'.
    + intros Hwf Hd. destruct (Hraises Hwf Hd) as (e & [= <-] & He). eauto.
Qed.

(** C10. Records that agree on [ingredients], [instructions],
    [category] and [glass] get the same derived values, the timestamp
    apart, whatever their other fields, the store and the clock. *)
Theorem enrich_single_cocktail_noninterference
    (w1 w2 : world) (l1 l2 : loc) (d1 d2 : gmap string pyval)
    (h1 h2 : gmap loc pyval) (t1 t2 : nat) :
  h1 !! l1 = Some (VDict d1) ->
  h2 !! l2 = Some (VDict d2) ->
  agree_on base_fields d1 d2 ->
  same_derived (enrich_single_cocktail w1 l1 (mkState h1 t1))
               (enrich_single_cocktail w2 l2 (mkState h2 t2)).
Proof.
  intros Hl1 Hl2 Hagree.
  pose proof (enrich_single_cocktail_dict w1 l1 d1 h1 t1 Hl1) as H1.
  pose proof (enrich_single_cocktail_dict w2 l2 d2 h2 t2 Hl2) as H2.
  rewrite (derive_ext d1 d2 Hagree) in H1.
  destruct (derive d2) as [f|x].
  - rewrite H1, H2. unfold same_derived. cbn [heap].
    eexists _, _. split; [apply lookup_insert_eq|]. split; [apply lookup_insert_eq|].
    intros k Hk Hne. apply attach_same_derived; assumption.
  - destruct H1 as (e1 & t1' & ->). destruct H2 as (e2 & t2' & ->). reflexivity.
Qed.

(** C7. Enriching an enriched record again gives the same derived
    values, the timestamp apart, and the same base fields. *)
Theorem enrich_single_cocktail_idempotent
    (w w' : world) (l l1 : loc) (d : gmap string pyval)
    (h : gmap loc pyval) (t : nat) (st1 : state) :
  h !! l = Some (VDict d) ->
  enrich_single_cocktail w l (mkState h t) = (Ok l1, st1) ->
  exists l2 st2 e1 e2,
    enrich_single_cocktail w' l1 st1 = (Ok l2, st2)
    /\ heap st1 !! l1 = Some (VDict e1)
    /\ heap st2 !! l2 = Some (VDict e2)
    /\ (forall k, k ∈ base_fields -> e2 !! k = e1 !! k /\ e1 !! k = d !! k)
    /\ (forall k, k ∈ derived_fields -> k <> "enriched_at" -> e2 !! k = e1 !! k).
Proof.
  intros Hl Hrun. pose proof (enrich_single_cocktail_dict w l d h t Hl) as H1.
  destruct (derive d) as [f|x] eqn:Ef;
    [|destruct H1 as (e' & t' & H1); rewrite Hrun in H1; discriminate H1].
  rewrite Hrun in H1. injection H1 as -> ->.
  set (e1 := attach (isoformat w t) f d).
  set (h1 := <[fresh (dom h) := VDict e1]> h).
  assert (Hl1 : h1 !! fresh (dom h) = Some (VDict e1)) by apply lookup_insert_eq.
  pose proof (enrich_single_cocktail_dict w' (fresh (dom h)) e1 h1 (S t) Hl1) as H2.
  rewrite (derive_ext e1 d (attach_agree _ f d)), Ef in H2.
  eexists _, _, e1, _. split; [exact H2|]. cbn [heap].
  split; [exact Hl1|]. split; [apply lookup_insert_eq|]. split.
  - intros k Hk. split; apply attach_base, base_not_derived, Hk.
  - intros k Hk Hne. apply attach_same_derived; assumption.
Qed.

Lemma enrich_single_cocktail_frame_witness :
  let outcome :=
    enrich_single_cocktail (calm_world VNone) 1%positive
      (mkState {[ 1%positive := VDict named_mojito ]} 0) in
  heap outcome.2 !! 1%positive = Some (VDict named_mojito)
  /\ exists l', outcome.1 = Ok l'.
Proof.
  assert (Hl : ({[ 1%positive := VDict named_mojito ]} : gmap loc pyval) !! 1%positive
               = Some (VDict named_mojito)) by (vm_compute; reflexivity).
  assert (Hd : enrichable named_mojito = true) by (vm_compute; reflexivity).
  destruct (enrich_single_cocktail_frame (calm_world VNone) 1%positive named_mojito
              _ 0%nat Hl)
    as (Hsource & _ & _ & Hreturns & _).
  split; [exact Hsource|exact (Hreturns Hd)].
Defined.

(** C8 as stated fails: a well-formed recipe with an amount in words is
    not enriched, the [ValueError] of [float()] leaves the enricher.  A
    negative amount is no obstacle. *)
Lemma enrich_single_cocktail_no_record :
  let outcome :=
    enrich_single_cocktail (calm_world VNone) 1%positive
      (mkState {[ 1%positive := VDict two_ounces_in_words ]} 0) in
  wf_recipe two_ounces_in_words = true
  /\ outcome.1 = Raise ValueError
  /\ ~ (exists l', outcome.1 = Ok l').
Proof.
  assert (E : (enrich_single_cocktail (calm_world VNone) 1%positive
                 (mkState {[ 1%positive := VDict two_ounces_in_words ]} 0)).1
              = Raise ValueError) by (vm_compute; reflexivity).
  cbv zeta. split; [vm_compute; reflexivity|]. split; [exact E|].
  intros (l' & E'). rewrite E in E'. discriminate E'.
Qed.

Example enrichable_negative_amount :
  enrichable {[ "ingredients" :=
                  VList [VDict {[ "name" := VStr "Rum"; "amount" := VInt (-1) ]}] ]}
  = true.
Proof. vm_compute. reflexivity. Qed.

Lemma enrich_single_cocktail_noninterference_witness :
  same_derived
    (enrich_single_cocktail (calm_world VNone) 1%positive
       (mkState {[ 1%positive := VDict mojito ]} 0))
    (enrich_single_cocktail (calm_world VNone) 5%positive
       (mkState {[ 5%positive := VDict named_mojito ]} 3)).
Proof.
  apply enrich_single_cocktail_noninterference with (d1 := mojito) (d2 := named_mojito).
  - vm_compute. reflexivity.
  - vm_compute. reflexivity.
  - intros k Hk. unfold base_fields in Hk. rewrite !elem_of_cons, elem_of_nil in Hk.
    destruct Hk as [->|[->|[->|[->|[]]]]]; vm_compute; reflexivity.
Defined.

Lemma enrich_single_cocktail_idempotent_witness :
  exists l1 st1 l2 st2,
    enrich_single_cocktail (calm_world VNone) 1%positive
      (mkState {[ 1%positive := VDict mojito ]} 0) = (Ok l1, st1)
    /\ enrich_single_cocktail (calm_world VNone) l1 st1 = (Ok l2, st2).
Proof.
  assert (Hl : ({[ 1%positive := VDict mojito ]} : gmap loc pyval) !! 1%positive
               = Some (VDict mojito)) by (vm_compute; reflexivity).
  assert (Hrun : exists l1 st1,
             enrich_single_cocktail (calm_world VNone) 1%positive
               (mkState {[ 1%positive := VDict mojito ]} 0) = (Ok l1, st1))
    by (vm_compute; eexists _, _; reflexivity).
  destruct Hrun as (l1 & st1 & Hrun).
  destruct (enrich_single_cocktail_idempotent (calm_world VNone) (calm_world VNone)
              1%positive l1 mojito _ 0%nat st1 Hl Hrun)
    as (l2 & st2 & _ & _ & Hagain & _).
  exists l1, st1, l2, st2. split; [exact Hrun|exact Hagain].
Defined.

(** ** The daiquiri scenario *)

(** Replaces a closed call by its value. *)
Ltac evaluate t :=
  let v := eval vm_compute in t in
  let E := fresh "E" in
  assert (E : t = v) by (vm_compute; reflexivity);
  rewrite E; clear E.

Lemma derive_daiquiri (d : gmap string pyval) :
  d !! "ingredients" = Some daiquiri_ingredients ->
  d !! "instructions" = Some daiquiri_instructions ->
  is_text (d !! "category") = true ->
  is_text (d !! "glass") = true ->
  exists score labels,
    derive d = Ok (mkDerived 3 score 8 4 true "rum" 241 labels)
    /\ "shaken" ∈ labels /\ "rum" ∈ labels.
Proof.
  intros Hi Ht Hc Hg. unfold derive, generate_tags, get. cbn [bind]. rewrite Hi, Ht.
  rewrite (text_field _ Hc), (text_field _ Hg). simpl (default _ (Some _)).
  evaluate (len daiquiri_ingredients). cbn [bind].
  evaluate (calculate_complexity_score daiquiri_ingredients). cbn [bind].
  unfold daiquiri_instructions.
  evaluate (estimate_prep_time daiquiri_ingredients
              (VStr "Shake all ingredients with ice. Strain into glass.")).
  evaluate (iter daiquiri_ingredients). cbn [bind].
  match goal with |- context [comprehension ingredient_name ?l] =>
    evaluate (comprehension ingredient_name l) end.
  evaluate (identify_spirit_type daiquiri_ingredients).
  evaluate (estimate_calories daiquiri_ingredients).
  evaluate (py_lower (VStr "Shake all ingredients with ice. Strain into glass.")).
  cbn [bind].
  evaluate (contains "shake" "shake all ingredients with ice. strain into glass.").
  evaluate (contains "stir" "shake all ingredients with ice. strain into glass.").
  evaluate (contains "muddle" "shake all ingredients with ice. strain into glass.").
  evaluate ("rum" =? "non-alcoholic")%string. cbv beta iota.
  eexists _, _. split.
  - reflexivity.
  - split; apply elem_of_dedupe; rewrite !elem_of_app, !list_elem_of_singleton; tauto.
Qed.

(** C6. A record with the daiquiri's ingredients and instructions is
    enriched with spirit type "rum", the alcoholic flag, 3 ingredients,
    tags that include "shaken" and "rum", and 241 calories: the sum of
    the contributions 97*2, 8*1 and 53*0.75, each truncated to an
    integer (194, 8 and 39). *)
Theorem daiquiri_enrichment (w : world) (l : loc) (d : gmap string pyval)
    (h : gmap loc pyval) (t : nat) :
  h !! l = Some (VDict d) ->
  d !! "ingredients" = Some daiquiri_ingredients ->
  d !! "instructions" = Some daiquiri_instructions ->
  is_text (d !! "category") = true ->
  is_text (d !! "glass") = true ->
  exists l' st' e labels,
    enrich_single_cocktail w l (mkState h t) = (Ok l', st')
    /\ heap st' !! l' = Some (VDict e)
    /\ e !! "spirit_type" = Some (VStr "rum")
    /\ e !! "is_alcoholic" = Some (VBool true)
    /\ e !! "ingredient_count" = Some (VInt 3)
    /\ e !! "tags" = Some (VList (VStr <$> labels))
    /\ "shaken" ∈ labels /\ "rum" ∈ labels
    /\ e !! "estimated_calories" = Some (VInt 241)
    /\ int_of_float (fmul (float_of_Z 97) (float_of_Z 2)) = Ok 194%Z
    /\ int_of_float (fmul (float_of_Z 8) (float_of_Z 1)) = Ok 8%Z
    /\ int_of_float (fmul (float_of_Z 53) f_three_quarters) = Ok 39%Z
    /\ (241 = 194 + 8 + 39)%Z.
Proof.
  intros Hl Hi Ht Hc Hg.
  pose proof (enrich_single_cocktail_dict w l d h t Hl) as Hrun.
  destruct (derive_daiquiri d Hi Ht Hc Hg) as (score & labels & Ef & Hshaken & Hrum).
  rewrite Ef in Hrun.
  destruct (attach_derived (isoformat w t)
              (mkDerived 3 score 8 4 true "rum" 241 labels) d)
    as (_ & A1 & _ & _ & _ & A5 & A6 & A7 & A8).
  eexists _, _, _, labels. split; [exact Hrun|]. cbn [heap].
  split; [apply lookup_insert_eq|].
  repeat split; try assumption; vm_compute; reflexivity.
Qed.

Lemma daiquiri_enrichment_witness :
  exists l' st' e,
    enrich_single_cocktail (calm_world VNone) 1%positive
      (mkState {[ 1%positive := VDict daiquiri ]} 0) = (Ok l', st')
    /\ heap st' !! l' = Some (VDict e)
    /\ e !! "spirit_type" = Some (VStr "rum")
    /\ e !! "estimated_calories" = Some (VInt 241).
Proof.
  assert (Hl : ({[ 1%positive := VDict daiquiri ]} : gmap loc pyval) !! 1%positive
               = Some (VDict daiquiri)) by (vm_compute; reflexivity).
  assert (Hi : daiquiri !! "ingredients" = Some daiquiri_ingredients)
    by (vm_compute; reflexivity).
  assert (Ht : daiquiri !! "instructions" = Some daiquiri_instructions)
    by (vm_compute; reflexivity).
  assert (Hc : is_text (daiquiri !! "category") = true) by (vm_compute; reflexivity).
  assert (Hg : is_text (daiquiri !! "glass") = true) by (vm_compute; reflexivity).
  destruct (daiquiri_enrichment (calm_world VNone) 1%positive daiquiri _ 0%nat
              Hl Hi Ht Hc Hg)
    as (l' & st' & e & labels & Hrun & Hnew & Hspirit & _ & _ & _ & _ & _ & Hcal & _).
  exists l', st', e. auto.
Defined.

(** ** The summary of an empty batch *)

(** [except ClientError] lets every other exception through. *)
Lemma except_ClientError_other (body : M unit) (st st' : state) (e : exn) :
  body st = (Raise e, st') ->
  (forall msg, e <> ClientError msg) ->
  except_ClientError body st = (Raise e, st').
Proof.
  intros Hbody He. unfold except_ClientError. rewrite Hbody.
  destruct e; try reflexivity. exfalso. exact (He msg eq_refl).
Qed.

Lemma except_ClientError_caught (body : M unit) (st st' : state) (msg : string) :
  body st = (Raise (ClientError msg), st') ->
  except_ClientError body st = (Ok tt, st').
Proof. intros Hbody. unfold except_ClientError. rewrite Hbody. reflexivity. Qed.

(** The summary of no records divides by their number. *)
Lemma write_processing_summary_empty (w : world) (partition : string) (st : state) :
  fst (write_processing_summary w [] partition st) = Raise ZeroDivisionError.
Proof. reflexivity. Qed.

(** C1 fails on the code. When the bucket holds the empty list and the
    enriched collection is written, the handler raises
    [ZeroDivisionError] from the summary step instead of reporting 0
    records. *)
Theorem lambda_handler_empty_batch (w : world) (ev : event) (st : state) :
  (forall bucket key, s3_get_object w bucket key = Ok (VList [])) ->
  (forall bucket key body, s3_put_object w bucket key body = Ok tt) ->
  fst (lambda_handler w ev st) = Raise ZeroDivisionError.
Proof.
  intros Hget Hput.
  unfold lambda_handler, log_and_reraise, enrich_cocktail_data, read_from_s3,
    write_to_s3, bindM, lift, datetime_now.
  rewrite Hget. cbn [mapM ret]. rewrite Hput. reflexivity.
Qed.

Lemma lambda_handler_empty_batch_witness :
  fst (lambda_handler (calm_world (VList [])) (mkEvent None None None) (mkState ∅ 0))
  = Raise ZeroDivisionError.
Proof.
  apply lambda_handler_empty_batch; intros; reflexivity.
Defined.

(** With one record in the batch the handler succeeds, also when the
    summary table rejects the item. *)
Example lambda_handler_summary_rejected :
  let w := mkWorld (fun _ => "2024-01-01T00:00:00") (fun _ => "2024/01/01")
                   (fun _ _ => Ok (VList [VDict daiquiri]))
                   (fun _ _ _ => Ok tt)
                   (fun _ _ => Raise (ClientError "ResourceNotFoundException")) in
  fst (lambda_handler w (mkEvent None None None) (mkState ∅ 0))
  = Ok (mkResponse 200 "Data enrichment completed successfully" 1
          "s3://mocktailverse-processed-data/enriched/2024/01/01/enriched_cocktail_data.json").
Proof. vm_compute. reflexivity. Qed.

(** An amount that is not a number aborts the whole invocation. *)
Example lambda_handler_unparsable_amount :
  fst (lambda_handler
         (calm_world (VList [VDict daiquiri;
                             VDict {[ "ingredients" :=
                                        VList [VDict {[ "name" := VStr "Rum";
                                                        "amount" := VStr "two" ]}] ]}]))
         (mkEvent None None None) (mkState ∅ 0))
  = Raise ValueError.
Proof. vm_compute. reflexivity. Qed.

(** * Further properties *)

(** ** The batch on the store *)

Lemma mapM_alloc_fresh (records : list pyval) (h : gmap loc pyval) (t : nat) :
  exists ls h',
    mapM alloc records (mkState h t) = (Ok ls, mkState h' t)
    /\ h ⊆ h'
    /\ NoDup ls
    /\ Forall (fun l => h !! l = None) ls
    /\ Forall2 (fun l v => h' !! l = Some v) ls records.
Proof.
  revert h. induction records as [|v records IH]; intros h.
  - exists [], h. split; [reflexivity|]. split; [reflexivity|].
    repeat split; constructor.
  - set (l := fresh (dom h)).
    assert (Hl : h !! l = None) by apply not_elem_of_dom, is_fresh.
    destruct (IH (<[l := v]> h)) as (ls & h' & Erun & Hsub & Hnodup & Hnew & Hall).
    exists (l :: ls), h'. split.
    { cbn [mapM]. unfold bindM at 1. unfold alloc at 1. cbn [heap ticks]. fold l.
      unfold bindM at 1. rewrite Erun. reflexivity. }
    assert (Hsub1 : h ⊆ <[l := v]> h) by (apply insert_subseteq, Hl).
    split; [etrans; eassumption|].
    split.
    { constructor; [|exact Hnodup]. intros Hin.
      rewrite Forall_forall in Hnew. specialize (Hnew l Hin).
      rewrite lookup_insert_eq in Hnew. discriminate. }
    split.
    { constructor; [exact Hl|]. eapply Forall_impl; [exact Hnew|].
      intros l' Hl'. simpl in Hl'. apply lookup_insert_None in Hl'. tauto. }
    constructor; [|exact Hall].
    eapply lookup_weaken; [|exact Hsub]. apply lookup_insert_eq.
Qed.

(** X1. [read_from_s3] allocates one record per element of a decoded
    list, and one record for any other decoded object; the records are
    new, pairwise distinct and hold the decoded values in order, the
    rest of the store is untouched.  An exception of the read leaves
    the function with the store as it was. *)
Theorem read_from_s3_records (w : world) (bucket key : string)
    (h : gmap loc pyval) (t : nat) :
  match s3_get_object w bucket key with
  | Ok data =>
      exists ls h',
        read_from_s3 w bucket key (mkState h t) = (Ok ls, mkState h' t)
        /\ length ls = (match data with VList items => length items | _ => 1%nat end)
        /\ NoDup ls
        /\ Forall (fun l => h !! l = None) ls
        /\ Forall2 (fun l v => h' !! l = Some v) ls (records_of data)
        /\ h ⊆ h'
  | Raise e => read_from_s3 w bucket key (mkState h t) = (Raise e, mkState h t)
  end.
Proof.
  unfold read_from_s3, bindM, lift.
  destruct (s3_get_object w bucket key) as [data|e]; [|reflexivity].
  destruct (mapM_alloc_fresh (records_of data) h t)
    as (ls & h' & Erun & Hsub & Hnodup & Hnew & Hall).
  exists ls, h'. split; [exact Erun|].
  split; [|auto].
  apply Forall2_length in Hall. rewrite Hall. destruct data; reflexivity.
Qed.

Lemma lookups_weaken (ls : list loc) (ds : list (gmap string pyval))
    (h h' : gmap loc pyval) :
  h ⊆ h' ->
  Forall2 (fun l d => h !! l = Some (VDict d)) ls ds ->
  Forall2 (fun l d => h' !! l = Some (VDict d)) ls ds.
Proof.
  intros Hsub Hall. eapply Forall2_impl; [exact Hall|].
  intros l d Hl. simpl in Hl. eapply lookup_weaken; eassumption.
Qed.

Lemma insert_fresh_subseteq (h : gmap loc pyval) (v : pyval) :
  h ⊆ <[fresh (dom h) := v]> h.
Proof. apply insert_subseteq, not_elem_of_dom, is_fresh. Qed.

Lemma enriched_body_lookup (w : world) (ds : list (gmap string pyval)) :
  forall (fs : list derived) (t i : nat) (d : gmap string pyval) (f : derived),
    ds !! i = Some d -> fs !! i = Some f ->
    enriched_body w t ds fs !! i = Some (VDict (attach (isoformat w (t + i)) f d)).
Proof.
  induction ds as [|d0 ds IH]; intros fs t i d f Hd Hf; [discriminate|].
  destruct fs as [|f0 fs]; [discriminate|]. destruct i as [|i]; simpl in *.
  - injection Hd as <-. injection Hf as <-. rewrite Nat.add_0_r. reflexivity.
  - rewrite (IH fs (S t) i d f Hd Hf). do 4 f_equal. lia.
Qed.

Lemma enriched_body_length (w : world) (ds : list (gmap string pyval)) :
  forall (fs : list derived) (t : nat),
    Forall2 (fun d f => derive d = Ok f) ds fs ->
    length (enriched_body w t ds fs) = length ds.
Proof.
  induction ds as [|d ds IH]; intros fs t Hfs; [reflexivity|].
  apply Forall2_cons_inv_l in Hfs as (f & fs' & _ & Hfs & ->).
  simpl. rewrite (IH fs' (S t) Hfs). reflexivity.
Qed.

(** The enricher mapped over records of the store allocates the
    enriched records, in order. *)
Lemma mapM_enrich_records (w : world) (ls : list loc) :
  forall (ds : list (gmap string pyval)) (fs : list derived)
         (h : gmap loc pyval) (t : nat),
    Forall2 (fun l d => h !! l = Some (VDict d)) ls ds ->
    Forall2 (fun d f => derive d = Ok f) ds fs ->
    exists ls' h',
      mapM (enrich_single_cocktail w) ls (mkState h t)
      = (Ok ls', mkState h' (t + length ls))
      /\ h ⊆ h'
      /\ Forall (fun l => h !! l = None) ls'
      /\ Forall2 (fun l v => h' !! l = Some v) ls' (enriched_body w t ds fs).
Proof.
  induction ls as [|l ls IH]; intros ds fs h t Hls Hfs.
  - apply Forall2_nil_inv_l in Hls as ->.
    exists [], h. cbn [mapM ret length]. rewrite Nat.add_0_r.
    split; [reflexivity|]. split; [reflexivity|]. split; constructor.
  - apply Forall2_cons_inv_l in Hls as (d & ds' & Hl & Hls & ->).
    apply Forall2_cons_inv_l in Hfs as (f & fs' & Hf & Hfs & ->).
    pose proof (enrich_single_cocktail_dict w l d h t Hl) as Hrun. rewrite Hf in Hrun.
    set (l1 := fresh (dom h)) in *.
    set (h1 := <[l1 := VDict (attach (isoformat w t) f d)]> h) in *.
    assert (Hsub1 : h ⊆ h1) by apply insert_fresh_subseteq.
    destruct (IH ds' fs' h1 (S t) (lookups_weaken _ _ _ _ Hsub1 Hls) Hfs)
      as (ls' & h' & Erest & Hsub & Hnew & Hat).
    exists (l1 :: ls'), h'. split.
    { cbn [mapM]. unfold bindM at 1. rewrite Hrun. unfold bindM at 1.
      rewrite Erest. cbn [ret length]. do 2 f_equal. lia. }
    split; [etrans; eassumption|].
    split.
    { constructor; [apply not_elem_of_dom, is_fresh|].
      eapply Forall_impl; [exact Hnew|]. intros l' Hl'. simpl in Hl'.
      apply lookup_insert_None in Hl'. tauto. }
    cbn [enriched_body]. constructor; [|exact Hat].
    eapply lookup_weaken; [|exact Hsub]. apply lookup_insert_eq.
Qed.


Lemma read_records (w : world) (bucket key : string) (data : pyval)
    (ds : list (gmap string pyval)) (h : gmap loc pyval) (t : nat) :
  s3_get_object w bucket key = Ok data ->
  records_of data = VDict <$> ds ->
  exists ls h',
    read_from_s3 w bucket key (mkState h t) = (Ok ls, mkState h' t)
    /\ h ⊆ h'
    /\ Forall2 (fun l d => h' !! l = Some (VDict d)) ls ds.
Proof.
  intros Hget Hds. unfold read_from_s3, bindM, lift. rewrite Hget.
  destruct (mapM_alloc_fresh (records_of data) h t)
    as (ls & h' & Erun & Hsub & _ & _ & Hall).
  exists ls, h'. split; [exact Erun|]. split; [exact Hsub|].
  rewrite Hds in Hall. apply Forall2_fmap_r in Hall. exact Hall.
Qed.

(** X2. [enrich_cocktail_data] reads the object
    [transformed/<partition>/transformed_cocktail_data.json] and returns
    one enriched record per record of it, in the order of the input:
    the i-th result is the i-th record with its derived values attached
    and the i-th reading of the clock as its timestamp.  Nothing that
    was in the store before is changed. *)
Theorem enrich_cocktail_data_in_order (w : world) (bucket partition : string)
    (data : pyval) (ds : list (gmap string pyval)) (fs : list derived)
    (h : gmap loc pyval) (t : nat) :
  s3_get_object w bucket (input_key partition) = Ok data ->
  records_of data = VDict <$> ds ->
  Forall2 (fun d f => derive d = Ok f) ds fs ->
  exists ls h',
    enrich_cocktail_data w bucket partition (mkState h t)
    = (Ok ls, mkState h' (t + length ds))
    /\ length ls = length ds
    /\ h ⊆ h'
    /\ forall i l d f,
        ls !! i = Some l -> ds !! i = Some d -> fs !! i = Some f ->
        h' !! l = Some (VDict (attach (isoformat w (t + i)) f d)).
Proof.
  intros Hget Hds Hfs.
  destruct (read_records w bucket (input_key partition) data ds h t Hget Hds)
    as (ls0 & h0 & Eread & Hsub0 & Hls0).
  destruct (mapM_enrich_records w ls0 ds fs h0 t Hls0 Hfs)
    as (ls & h' & Erun & Hsub & _ & Hat).
  exists ls, h'. split.
  { unfold enrich_cocktail_data, bindM. fold (input_key partition).
    rewrite Eread, Erun. rewrite (Forall2_length _ _ _ Hls0). reflexivity. }
  pose proof (Forall2_length _ _ _ Hat) as Hlen.
  rewrite (enriched_body_length w ds fs t Hfs) in Hlen.
  split; [exact Hlen|]. split; [etrans; eassumption|].
  intros i l d f Hl Hd Hf.
  destruct (Forall2_lookup_l _ _ _ _ _ Hat Hl) as (v & Hv & Hlv).
  rewrite (enriched_body_lookup w ds fs t i d f Hd Hf) in Hv.
  injection Hv as <-. exact Hlv.
Qed.

Lemma enrich_cocktail_data_in_order_witness :
  exists ls h',
    enrich_cocktail_data (calm_world (VList [VDict mojito; VDict daiquiri]))
      "bucket" "2024/01/01" (mkState ∅ 0)
    = (Ok ls, mkState h' 2)
    /\ length ls = 2%nat.
Proof.
  assert (Hfs : exists fs, Forall2 (fun d f => derive d = Ok f) [mojito; daiquiri] fs).
  { eexists [_; _].
    constructor; [vm_compute; reflexivity|].
    constructor; [vm_compute; reflexivity|]. constructor. }
  destruct Hfs as (fs & Hfs).
  destruct (enrich_cocktail_data_in_order
              (calm_world (VList [VDict mojito; VDict daiquiri])) "bucket" "2024/01/01"
              (VList [VDict mojito; VDict daiquiri]) [mojito; daiquiri] fs ∅ 0
              eq_refl eq_refl Hfs)
    as (ls & h' & Erun & Hlen & _).
  exists ls, h'. split; [exact Erun|exact Hlen].
Defined.

(** ** The summary *)

Lemma sum_step_int (key : string) (acc : M pyval) (l : loc) (a c : Z)
    (e : gmap string pyval) (h : gmap loc pyval) (t : nat) :
  acc (mkState h t) = (Ok (VInt a), mkState h t) ->
  h !! l = Some (VDict e) ->
  default (VInt 0) (e !! key) = VInt c ->
  sum_step key acc l (mkState h t) = (Ok (VInt (a + c)), mkState h t).
Proof.
  intros Hacc Hl Hc. unfold sum_step, bindM, get_at, bindM, deref, lift.
  rewrite Hacc. cbn [heap]. rewrite Hl. cbn [get]. rewrite Hc. reflexivity.
Qed.

Lemma sum_ints (key : string) (ls : list loc) (h : gmap loc pyval) (t : nat) :
  forall (cs : list Z) (acc : M pyval) (a : Z),
    acc (mkState h t) = (Ok (VInt a), mkState h t) ->
    Forall2 (fun l c => exists e, h !! l = Some (VDict e)
                                  /\ default (VInt 0) (e !! key) = VInt c) ls cs ->
    fold_left (sum_step key) ls acc (mkState h t)
    = (Ok (VInt (fold_left Z.add cs a)), mkState h t).
Proof.
  induction ls as [|l ls IH]; intros cs acc a Hacc Hall.
  - apply Forall2_nil_inv_l in Hall as ->. exact Hacc.
  - apply Forall2_cons_inv_l in Hall as (c & cs' & (e & Hl & Hc) & Hall & ->).
    cbn [fold_left]. apply IH; [|exact Hall].
    exact (sum_step_int key acc l a c e h t Hacc Hl Hc).
Qed.

Lemma sum_step_float (key : string) (acc : M pyval) (l : loc) (a s : float)
    (e : gmap string pyval) (h : gmap loc pyval) (t : nat) :
  acc (mkState h t) = (Ok (VFloat a), mkState h t) ->
  h !! l = Some (VDict e) ->
  e !! key = Some (VFloat s) ->
  sum_step key acc l (mkState h t) = (Ok (VFloat (fadd a s)), mkState h t).
Proof.
  intros Hacc Hl Hs. unfold sum_step, bindM, get_at, bindM, deref, lift.
  rewrite Hacc. cbn [heap]. rewrite Hl. cbn [get]. rewrite Hs. reflexivity.
Qed.

Lemma sum_floats_from (key : string) (ls : list loc) (h : gmap loc pyval) (t : nat) :
  forall (ss : list float) (acc : M pyval) (a : float),
    acc (mkState h t) = (Ok (VFloat a), mkState h t) ->
    Forall2 (fun l s => exists e, h !! l = Some (VDict e)
                                  /\ e !! key = Some (VFloat s)) ls ss ->
    fold_left (sum_step key) ls acc (mkState h t)
    = (Ok (VFloat (fold_left fadd ss a)), mkState h t).
Proof.
  induction ls as [|l ls IH]; intros ss acc a Hacc Hall.
  - apply Forall2_nil_inv_l in Hall as ->. exact Hacc.
  - apply Forall2_cons_inv_l in Hall as (s & ss' & (e & Hl & Hs) & Hall & ->).
    cbn [fold_left]. apply IH; [|exact Hall].
    exact (sum_step_float key acc l a s e h t Hacc Hl Hs).
Qed.

(** The sum starts from the integer 0, which the first score turns
    into a float. *)
Lemma sum_floats (key : string) (ls : list loc) (ss : list float)
    (h : gmap loc pyval) (t : nat) :
  ls <> [] ->
  Forall2 (fun l s => exists e, h !! l = Some (VDict e)
                                /\ e !! key = Some (VFloat s)) ls ss ->
  sum_field key ls (mkState h t)
  = (Ok (VFloat (fold_left fadd ss f_zero)), mkState h t).
Proof.
  intros Hne Hall. destruct ls as [|l ls]; [congruence|].
  apply Forall2_cons_inv_l in Hall as (s & ss' & (e & Hl & Hs) & Hall & ->).
  change (sum_field key (l :: ls)) with
    (fold_left (sum_step key) ls (sum_step key (ret (VInt 0)) l)).
  rewrite (sum_floats_from key ls h t ss' _ (fadd f_zero s)); [reflexivity| |exact Hall].
  unfold sum_step, bindM, ret, get_at, bindM, deref, lift. cbn [heap].
  rewrite Hl. cbn [get]. rewrite Hs. reflexivity.
Qed.

(** X3. For a batch that is not empty, [write_processing_summary] hands
    DynamoDB one item for the table [mocktailverse-processing-summary]:
    the partition, the clock reading, the number of records, the sum of
    their ingredient counts (a record without the field counts 0) and
    the sum of their complexity scores divided by their number.  A
    [ClientError] of the table is swallowed; any other exception leaves
    the function.  The store is not changed. *)
Theorem write_processing_summary_item (w : world) (ls : list loc)
    (figures : list (Z * float)) (partition : string)
    (h : gmap loc pyval) (t : nat) :
  ls <> [] ->
  Forall2 (has_figures h) ls figures ->
  write_processing_summary w ls partition (mkState h t)
  = (match dynamodb_put_item w "mocktailverse-processing-summary"
             (summary_item partition (isoformat w t) figures) with
     | Raise (ClientError _) => Ok tt
     | outcome => outcome
     end,
     mkState h (S t)).
Proof.
  intros Hne Hall. pose proof (Forall2_length _ _ _ Hall) as Hlen.
  assert (Hints : sum_field "ingredient_count" ls (mkState h (S t))
                  = (Ok (VInt (fold_left Z.add figures.*1 0%Z)), mkState h (S t))).
  { change (sum_field "ingredient_count" ls) with
      (fold_left (sum_step "ingredient_count") ls (ret (VInt 0))).
    apply sum_ints; [reflexivity|]. apply Forall2_fmap_r.
    eapply Forall2_impl; [exact Hall|]. intros l cf (e & Hl & Hc & _). eauto. }
  assert (Hfloats : sum_field "complexity_score" ls (mkState h (S t))
                    = (Ok (VFloat (fold_left fadd figures.*2 f_zero)), mkState h (S t))).
  { apply sum_floats; [exact Hne|]. apply Forall2_fmap_r.
    eapply Forall2_impl; [exact Hall|]. intros l cf (e & Hl & _ & Hs). eauto. }
  unfold write_processing_summary, except_ClientError, bindM, datetime_now, lift.
  cbn [heap ticks]. rewrite Hints, Hfloats. unfold truediv.
  assert (Hn : (Z.of_nat (length ls) =? 0)%Z = false).
  { apply Z.eqb_neq. destruct ls; [congruence|]. cbn [length]. lia. }
  rewrite Hn. unfold summary_item. rewrite <- Hlen.
  destruct (dynamodb_put_item w _ _) as [[]|[]]; reflexivity.
Qed.

Lemma write_processing_summary_item_witness :
  write_processing_summary (calm_world VNone) [1%positive; 2%positive] "2024/01/01"
    (mkState two_summarised 0)
  = (Ok tt, mkState two_summarised 1).
Proof.
  assert (Hall : Forall2 (has_figures two_summarised) [1%positive; 2%positive]
                   [(3%Z, f_three); (0%Z, f_half)]).
  { constructor; [|constructor; [|constructor]];
      eexists; (split; [vm_compute; reflexivity|]);
      split; vm_compute; reflexivity. }
  rewrite (write_processing_summary_item (calm_world VNone) [1%positive; 2%positive]
             [(3%Z, f_three); (0%Z, f_half)] "2024/01/01" two_summarised 0
             ltac:(discriminate) Hall).
  reflexivity.
Defined.

(** ** The handler *)

Lemma log_and_reraise_same {A : Type} (body : M A) (st : state) :
  log_and_reraise body st = body st.
Proof. unfold log_and_reraise. destruct (body st) as [[a|e] st']; reflexivity. Qed.

Lemma mapM_deref_all (ls : list loc) (vs : list pyval) (h : gmap loc pyval) (t : nat) :
  Forall2 (fun l v => h !! l = Some v) ls vs ->
  mapM deref ls (mkState h t) = (Ok vs, mkState h t).
Proof.
  intros Hall. induction Hall as [|l v ls vs Hl Hall IH]; [reflexivity|].
  cbn [mapM]. unfold bindM at 1. unfold deref at 1. cbn [heap]. rewrite Hl.
  unfold bindM at 1. rewrite IH. reflexivity.
Qed.

Lemma enriched_body_figures (w : world) (ds : list (gmap string pyval)) :
  forall (fs : list derived) (ls : list loc) (h : gmap loc pyval) (t : nat),
    Forall2 (fun d f => derive d = Ok f) ds fs ->
    Forall2 (fun l v => h !! l = Some v) ls (enriched_body w t ds fs) ->
    Forall2 (has_figures h) ls (figures_of fs).
Proof.
  induction ds as [|d ds IH]; intros fs ls h t Hfs Hls.
  - apply Forall2_nil_inv_l in Hfs as ->. apply Forall2_nil_inv_r in Hls as ->.
    constructor.
  - apply Forall2_cons_inv_l in Hfs as (f & fs' & _ & Hfs & ->).
    cbn [enriched_body] in Hls.
    apply Forall2_cons_inv_r in Hls as (l & ls' & Hl & Hls & ->).
    unfold figures_of. cbn [fmap list_fmap]. constructor; [|exact (IH fs' ls' h _ Hfs Hls)].
    destruct (attach_derived (isoformat w t) f d) as (_ & A1 & A2 & _).
    exists (attach (isoformat w t) f d). cbn [fst snd]. rewrite A1. auto.
Qed.

(** The batch step of the handler: the enriched records are allocated,
    in order, and the clock has been read once per record. *)
Lemma enrich_cocktail_data_body (w : world) (bucket partition : string)
    (data : pyval) (ds : list (gmap string pyval)) (fs : list derived)
    (h : gmap loc pyval) (t : nat) :
  s3_get_object w bucket (input_key partition) = Ok data ->
  records_of data = VDict <$> ds ->
  Forall2 (fun d f => derive d = Ok f) ds fs ->
  exists ls h',
    enrich_cocktail_data w bucket partition (mkState h t)
    = (Ok ls, mkState h' (t + length ds))
    /\ length ls = length ds
    /\ Forall2 (fun l v => h' !! l = Some v) ls (enriched_body w t ds fs).
Proof.
  intros Hget Hds Hfs.
  destruct (read_records w bucket (input_key partition) data ds h t Hget Hds)
    as (ls0 & h0 & Eread & _ & Hls0).
  destruct (mapM_enrich_records w ls0 ds fs h0 t Hls0 Hfs)
    as (ls & h' & Erun & _ & _ & Hat).
  exists ls, h'. split.
  { unfold enrich_cocktail_data, bindM. fold (input_key partition).
    rewrite Eread, Erun. rewrite (Forall2_length _ _ _ Hls0). reflexivity. }
  split; [|exact Hat].
  rewrite (Forall2_length _ _ _ Hat). apply enriched_body_length, Hfs.
Qed.

(** The handler after its batch step returned [ls]. *)
Lemma lambda_handler_steps (w : world) (ev : event) (h : gmap loc pyval) (t : nat) :
  lambda_handler w ev (mkState h t)
  = match enrich_cocktail_data w (handler_input_bucket ev) (handler_partition w ev t)
            (mkState h (S t)) with
    | (Ok ls, st1) =>
        match write_to_s3 w ls (handler_output_bucket ev)
                (output_key (handler_partition w ev t)) st1 with
        | (Ok _, st2) =>
            match write_processing_summary w ls (handler_partition w ev t) st2 with
            | (Ok _, st3) => (Ok (success ev (handler_partition w ev t) (length ls)), st3)
            | (Raise e, st3) => (Raise e, st3)
            end
        | (Raise e, st2) => (Raise e, st2)
        end
    | (Raise e, st1) => (Raise e, st1)
    end.
Proof. unfold lambda_handler. rewrite log_and_reraise_same. reflexivity. Qed.

(** X4. On a batch that is not empty and whose records all derive, with
    the enriched collection written, the handler answers 200 with the
    number of records and the location
    [s3://<output bucket>/enriched/<partition>/enriched_cocktail_data.json],
    whether the summary table accepts the item or raises a
    [ClientError]; any other exception of the table leaves the handler.
    The body written is the list of the enriched records in the order
    of the input; buckets default to [mocktailverse-processed-data] and
    the partition to the day of the invocation. *)
Theorem lambda_handler_outcome (w : world) (ev : event) (data : pyval)
    (ds : list (gmap string pyval)) (fs : list derived)
    (h : gmap loc pyval) (t : nat) :
  let partition := handler_partition w ev t in
  s3_get_object w (handler_input_bucket ev) (input_key partition) = Ok data ->
  records_of data = VDict <$> ds ->
  ds <> [] ->
  Forall2 (fun d f => derive d = Ok f) ds fs ->
  s3_put_object w (handler_output_bucket ev) (output_key partition)
    (enriched_body w (S t) ds fs) = Ok tt ->
  (lambda_handler w ev (mkState h t)).1
  = match dynamodb_put_item w "mocktailverse-processing-summary"
            (summary_item partition (isoformat w (S t + length ds)) (figures_of fs)) with
    | Ok _ | Raise (ClientError _) => Ok (success ev partition (length ds))
    | Raise e => Raise e
    end.
Proof.
  intros partition Hget Hds Hne Hfs Hput.
  destruct (enrich_cocktail_data_body w (handler_input_bucket ev) partition data ds fs
              h (S t) Hget Hds Hfs) as (ls & h' & Erun & Hlen & Hbody).
  rewrite lambda_handler_steps. fold partition. rewrite Erun.
  unfold write_to_s3, bindM. rewrite (mapM_deref_all ls _ h' _ Hbody).
  unfold lift. rewrite Hput.
  assert (Hls : ls <> []) by (destruct ls, ds; simpl in Hlen; congruence).
  rewrite (write_processing_summary_item w ls (figures_of fs) partition h' _ Hls
             (enriched_body_figures w ds fs ls h' (S t) Hfs Hbody)).
  rewrite Hlen.
  destruct (dynamodb_put_item w _ _) as [[]|[]]; reflexivity.
Qed.

Lemma lambda_handler_outcome_witness :
  (lambda_handler (calm_world (VList [VDict mojito; VDict daiquiri]))
     (mkEvent None (Some "enriched-bucket") None) (mkState ∅ 0)).1
  = Ok (mkResponse 200 "Data enrichment completed successfully" 2
          "s3://enriched-bucket/enriched/2024/01/01/enriched_cocktail_data.json").
Proof.
  assert (Hfs : exists fs, Forall2 (fun d f => derive d = Ok f) [mojito; daiquiri] fs).
  { eexists [_; _].
    constructor; [vm_compute; reflexivity|].
    constructor; [vm_compute; reflexivity|]. constructor. }
  destruct Hfs as (fs & Hfs).
  rewrite (lambda_handler_outcome (calm_world (VList [VDict mojito; VDict daiquiri]))
             (mkEvent None (Some "enriched-bucket") None)
             (VList [VDict mojito; VDict daiquiri]) [mojito; daiquiri] fs ∅ 0
             eq_refl eq_refl ltac:(discriminate) Hfs eq_refl).
  reflexivity.
Defined.

(** X5. The two mandatory storage operations are fatal: an exception of
    the read leaves the handler, and so does an exception of the write
    of the enriched collection, whatever the batch. *)
Theorem lambda_handler_storage_failure (w : world) (ev : event) (e : exn)
    (h : gmap loc pyval) (t : nat) :
  let partition := handler_partition w ev t in
  (s3_get_object w (handler_input_bucket ev) (input_key partition) = Raise e ->
   lambda_handler w ev (mkState h t) = (Raise e, mkState h (S t)))
  /\ (forall data ds fs,
        s3_get_object w (handler_input_bucket ev) (input_key partition) = Ok data ->
        records_of data = VDict <$> ds ->
        Forall2 (fun d f => derive d = Ok f) ds fs ->
        s3_put_object w (handler_output_bucket ev) (output_key partition)
          (enriched_body w (S t) ds fs) = Raise e ->
        (lambda_handler w ev (mkState h t)).1 = Raise e).
Proof.
  intros partition. split.
  - intros Hget. rewrite lambda_handler_steps. fold partition.
    unfold enrich_cocktail_data, read_from_s3, bindM, lift.
    fold (input_key partition). rewrite Hget. reflexivity.
  - intros data ds fs Hget Hds Hfs Hput.
    destruct (enrich_cocktail_data_body w (handler_input_bucket ev) partition data ds fs
                h (S t) Hget Hds Hfs) as (ls & h' & Erun & Hlen & Hbody).
    rewrite lambda_handler_steps. fold partition. rewrite Erun.
    unfold write_to_s3, bindM. rewrite (mapM_deref_all ls _ h' _ Hbody).
    unfold lift. rewrite Hput. reflexivity.
Qed.


Lemma lambda_handler_storage_failure_witness :
  (lambda_handler missing_world (mkEvent None None None) (mkState ∅ 0)).1
  = Raise (ClientError "NoSuchKey")
  /\ (lambda_handler (readonly_world (VDict mojito)) (mkEvent None None None)
        (mkState ∅ 0)).1
     = Raise (ClientError "AccessDenied").
Proof.
  split.
  - destruct (lambda_handler_storage_failure missing_world (mkEvent None None None)
                (ClientError "NoSuchKey") ∅ 0) as [Hread _].
    rewrite (Hread eq_refl). reflexivity.
  - destruct (lambda_handler_storage_failure (readonly_world (VDict mojito))
                (mkEvent None None None) (ClientError "AccessDenied") ∅ 0)
      as [_ Hwrite].
    assert (Hfs : exists fs, Forall2 (fun d f => derive d = Ok f) [mojito] fs).
    { eexists [_]. constructor; [vm_compute; reflexivity|]. constructor. }
    destruct Hfs as (fs & Hfs).
    exact (Hwrite (VDict mojito) [mojito] fs eq_refl eq_refl Hfs eq_refl).
Defined.


(** ** More on the calorie estimate *)

Lemma add_calories_shift (total : Z) (v : pyval) :
  add_calories total v = let* c := add_calories 0 v in Ok (total + c)%Z.
Proof.
  unfold add_calories.
  destruct (ingredient_name v) as [name|e]; [|reflexivity]. cbn [bind].
  destruct (get v "amount" (VInt 0)) as [raw|e]; [|reflexivity]. cbn [bind].
  destruct (py_float raw) as [amount|e]; [|reflexivity]. cbn [bind].
  destruct (first_match calorie_map name amount) as [c|e]; reflexivity.
Qed.

Lemma calorie_loop_shift (items : list pyval) :
  forall total,
    for_each add_calories items total
    = let* n := for_each add_calories items 0%Z in Ok (total + n)%Z.
Proof.
  induction items as [|v items IH]; intros total.
  - simpl. f_equal. lia.
  - cbn [for_each]. rewrite (add_calories_shift total v).
    destruct (add_calories 0 v) as [c|e]; [|reflexivity]. cbn [bind].
    rewrite (IH (total + c)%Z), (IH c).
    destruct (for_each add_calories items 0%Z) as [n|e]; [|reflexivity].
    cbn [bind]. f_equal. lia.
Qed.

(** X7. The calorie estimate is additive: the estimate of two lists put
    end to end is the sum of their estimates, and raises what the first
    list raises, or else what the second raises. *)
Theorem estimate_calories_app (l1 l2 : list pyval) :
  estimate_calories (VList (l1 ++ l2))
  = let* n1 := estimate_calories (VList l1) in
    let* n2 := estimate_calories (VList l2) in
    Ok (n1 + n2)%Z.
Proof.
  unfold estimate_calories, iter. cbn [bind]. rewrite for_each_app.
  destruct (for_each add_calories l1 0%Z) as [n1|e]; [|reflexivity]. cbn [bind].
  apply calorie_loop_shift.
Qed.

Lemma add_calories_ok (total n : Z) (v : pyval) :
  add_calories total v = Ok n ->
  exists c, add_calories 0 v = Ok c /\ n = (total + c)%Z.
Proof.
  rewrite add_calories_shift. destruct (add_calories 0 v) as [c|e]; [|discriminate].
  cbn [bind]. intros [= <-]. eauto.
Qed.

Lemma add_calories_from (total c : Z) (v : pyval) :
  add_calories 0 v = Ok c -> add_calories total v = Ok (total + c)%Z.
Proof. intros H. rewrite add_calories_shift, H. reflexivity. Qed.

Lemma calorie_loop_permutation (l1 l2 : list pyval) :
  Permutation l1 l2 ->
  forall total n,
    for_each add_calories l1 total = Ok n -> for_each add_calories l2 total = Ok n.
Proof.
  induction 1 as [|x l1 l2 _ IH|x y l|l1 l2 l3 _ IH1 _ IH2]; intros total n Hrun.
  - exact Hrun.
  - cbn [for_each] in *. destruct (add_calories total x) as [a|e]; [|discriminate].
    cbn [bind] in *. exact (IH a n Hrun).
  - cbn [for_each] in *.
    destruct (add_calories total y) as [a1|e] eqn:Ey; [|discriminate]. cbn [bind] in Hrun.
    destruct (add_calories a1 x) as [a2|e] eqn:Ex; [|discriminate]. cbn [bind] in Hrun.
    apply add_calories_ok in Ey as (cy & Ey & ->).
    apply add_calories_ok in Ex as (cx & Ex & ->).
    rewrite (add_calories_from total cx x Ex). cbn [bind].
    rewrite (add_calories_from (total + cx) cy y Ey). cbn [bind].
    replace (total + cx + cy)%Z with (total + cy + cx)%Z by lia. exact Hrun.
  - exact (IH2 total n (IH1 total n Hrun)).
Qed.

(** X8. The calorie estimate does not depend on the order of the
    ingredients: a list that is estimated has the estimate of each of
    its rearrangements. *)
Theorem estimate_calories_permutation (l1 l2 : list pyval) (n : Z) :
  Permutation l1 l2 ->
  estimate_calories (VList l1) = Ok n ->
  estimate_calories (VList l2) = Ok n.
Proof.
  intros Hperm. unfold estimate_calories, iter. cbn [bind].
  apply calorie_loop_permutation, Hperm.
Qed.

Lemma estimate_calories_permutation_witness :
  estimate_calories (VList (rev two_rum_and_syrup)) = Ok 233%Z.
Proof.
  apply (estimate_calories_permutation two_rum_and_syrup).
  - apply Permutation_rev.
  - vm_compute. reflexivity.
Defined.

Lemma first_match_not_finite (table : list (string * Z)) (name : string) (amount : float) :
  forallb (fun entry => table_value entry.2) table = true ->
  is_finite amount = false ->
  if existsb (fun entry => contains entry.1 name) table
  then first_match table name amount = Raise ValueError
       \/ first_match table name amount = Raise OverflowError
  else first_match table name amount = Ok 0%Z.
Proof.
  intros Ht Ha. induction table as [|[key c] table IH]; [reflexivity|].
  apply forallb_cons_inv in Ht as [Hc Ht]. cbn [existsb first_match fst].
  destruct (contains key name); cbn [orb]; [|exact (IH Ht)].
  unfold table_value in Hc. cbn [snd] in Hc.
  destruct (float_of_Z c) as [sc|sc| |[|] mc ec]; try discriminate;
    destruct amount as [sa|sa| |sa ma ea]; try discriminate; cbn; auto.
Qed.

Lemma add_calories_not_finite (total : Z) (d : gmap string pyval) (amount : float) :
  is_text (d !! "name") = true ->
  d !! "amount" = Some (VFloat amount) ->
  is_finite amount = false ->
  if existsb (fun entry => contains entry.1 (lower (text_of (d !! "name")))) calorie_map
  then add_calories total (VDict d) = Raise ValueError
       \/ add_calories total (VDict d) = Raise OverflowError
  else add_calories total (VDict d) = Ok total.
Proof.
  intros Hname Hamount Ha.
  pose proof (first_match_not_finite calorie_map (lower (text_of (d !! "name"))) amount
                calorie_map_values Ha) as Hmatch.
  unfold add_calories. rewrite (ingredient_name_wf (VDict d) Hname).
  cbn [bind get name_of]. rewrite Hamount. simpl (default _ _). cbn [py_float bind].
  destruct (existsb _ calorie_map).
  - destruct Hmatch as [-> | ->]; auto.
  - rewrite Hmatch. cbn [bind]. f_equal. lia.
Qed.

(** X9. An amount that is NaN or infinite (JSON [NaN], [Infinity]) is
    fatal exactly for the ingredients the table knows: when the
    lowercased name contains a key of the calorie table the estimator
    raises [ValueError] or [OverflowError]; when it contains none, the
    ingredient adds nothing and the estimate is that of the list
    without it. *)
Theorem estimate_calories_not_finite (before after : list pyval)
    (d : gmap string pyval) (amount : float) (total : Z) :
  is_text (d !! "name") = true ->
  d !! "amount" = Some (VFloat amount) ->
  is_finite amount = false ->
  for_each add_calories before 0%Z = Ok total ->
  if existsb (fun entry => contains entry.1 (lower (text_of (d !! "name")))) calorie_map
  then estimate_calories (VList (before ++ VDict d :: after)) = Raise ValueError
       \/ estimate_calories (VList (before ++ VDict d :: after)) = Raise OverflowError
  else estimate_calories (VList (before ++ VDict d :: after))
       = estimate_calories (VList (before ++ after)).
Proof.
  intros Hname Hamount Ha Hbefore.
  pose proof (add_calories_not_finite total d amount Hname Hamount Ha) as Hstep.
  unfold estimate_calories, iter. cbn [bind]. rewrite !for_each_app, Hbefore.
  cbn [bind for_each].
  destruct (existsb _ calorie_map).
  - destruct Hstep as [-> | ->]; auto.
  - rewrite Hstep. reflexivity.
Qed.

Lemma estimate_calories_not_finite_witness :
  estimate_calories (VList ([VDict {[ "name" := VStr "Gin"; "amount" := VInt 2 ]}]
                            ++ VDict tonic_nan :: []))
  = estimate_calories (VList ([VDict {[ "name" := VStr "Gin"; "amount" := VInt 2 ]}] ++ []))
  /\ (estimate_calories (VList ([] ++ VDict soda_infinity :: [])) = Raise ValueError
      \/ estimate_calories (VList ([] ++ VDict soda_infinity :: [])) = Raise OverflowError).
Proof.
  assert (Hn1 : is_text (tonic_nan !! "name") = true) by (vm_compute; reflexivity).
  assert (Ha1 : tonic_nan !! "amount" = Some (VFloat S754_nan))
    by (vm_compute; reflexivity).
  assert (Hn2 : is_text (soda_infinity !! "name") = true) by (vm_compute; reflexivity).
  assert (Ha2 : soda_infinity !! "amount" = Some (VFloat (S754_infinity false)))
    by (vm_compute; reflexivity).
  assert (Hb1 : for_each add_calories [VDict {[ "name" := VStr "Gin"; "amount" := VInt 2 ]}]
                  0%Z = Ok 140%Z) by (vm_compute; reflexivity).
  pose proof (estimate_calories_not_finite _ [] tonic_nan S754_nan 140 Hn1 Ha1 eq_refl Hb1)
    as H1.
  pose proof (estimate_calories_not_finite [] [] soda_infinity (S754_infinity false) 0
                Hn2 Ha2 eq_refl eq_refl) as H2.
  assert (E1 : existsb (fun entry => contains entry.1 (lower (text_of (tonic_nan !! "name"))))
                 calorie_map = false) by (vm_compute; reflexivity).
  assert (E2 : existsb (fun entry => contains entry.1
                                       (lower (text_of (soda_infinity !! "name"))))
                 calorie_map = true) by (vm_compute; reflexivity).
  rewrite E1 in H1. rewrite E2 in H2. split; assumption.
Defined.

(** ** More on the spirit type *)

Lemma ingredient_name_malformed (v : pyval) :
  wf_ingredient v = false -> ingredient_name v = Raise AttributeError.
Proof.
  destruct v as [| | | | | |d]; try reflexivity. simpl.
  unfold ingredient_name, get. cbn [bind].
  destruct (d !! "name") as [[]|]; try discriminate; reflexivity.
Qed.

Lemma scan_ingredients_malformed (keywords : list string)
    (before after : list pyval) (bad : pyval) :
  forallb wf_ingredient before = true ->
  wf_ingredient bad = false ->
  scan_ingredients keywords (before ++ bad :: after)
  = if existsb (fun v => any_in keywords (name_of v)) before
    then Ok true else Raise AttributeError.
Proof.
  intros Hb Hbad. induction before as [|u before IH]; simpl.
  - rewrite (ingredient_name_malformed bad Hbad). reflexivity.
  - apply forallb_cons_inv in Hb as [Hu Hb].
    rewrite (ingredient_name_wf u Hu). cbn [bind].
    destruct (any_in keywords (name_of u)); [reflexivity|]. exact (IH Hb).
Qed.

(** X10. An ingredient that is not a dictionary with a string name makes
    [identify_spirit_type] raise [AttributeError], unless an ingredient
    before it matches the first spirit of the table: then the scan
    returns "vodka" without looking at it. *)
Theorem identify_spirit_type_malformed (before after : list pyval) (bad : pyval) :
  forallb wf_ingredient before = true ->
  wf_ingredient bad = false ->
  identify_spirit_type (VList (before ++ bad :: after))
  = if existsb (fun v => any_in ["vodka"; "absolut"; "smirnoff"] (name_of v)) before
    then Ok "vodka" else Raise AttributeError.
Proof.
  intros Hb Hbad. unfold identify_spirit_type, iter. cbn [bind].
  unfold spirit_map. cbn [scan_spirits].
  rewrite (scan_ingredients_malformed _ before after bad Hb Hbad).
  destruct (existsb _ before); reflexivity.
Qed.

Lemma identify_spirit_type_malformed_witness :
  identify_spirit_type
    (VList ([VDict {[ "name" := VStr "Absolut Citron" ]}] ++ VInt 42 :: []))
  = Ok "vodka"
  /\ identify_spirit_type
       (VList ([VDict {[ "name" := VStr "Dry Gin" ]}] ++ VNone :: []))
     = Raise AttributeError.
Proof.
  assert (H1 : forallb wf_ingredient [VDict {[ "name" := VStr "Absolut Citron" ]}] = true)
    by (vm_compute; reflexivity).
  assert (H2 : forallb wf_ingredient [VDict {[ "name" := VStr "Dry Gin" ]}] = true)
    by (vm_compute; reflexivity).
  split.
  - rewrite (identify_spirit_type_malformed _ [] (VInt 42) H1 eq_refl).
    vm_compute. reflexivity.
  - rewrite (identify_spirit_type_malformed _ [] VNone H2 eq_refl).
    vm_compute. reflexivity.
Defined.

(** ** The alcoholic flag *)

Lemma prefix_cons (a b : ascii) (s1 s2 : string) :
  String.prefix (String a s1) (String b s2) = Ascii.eqb a b && String.prefix s1 s2.
Proof.
  cbn [String.prefix]. destruct (ascii_dec a b) as [->|Hne].
  - rewrite Ascii.eqb_refl. reflexivity.
  - apply Ascii.eqb_neq in Hne. rewrite Hne. reflexivity.
Qed.

Lemma prefix_empty (s : string) : String.prefix "" s = true.
Proof. destruct s; reflexivity. Qed.

Lemma append_cons (c : ascii) (a b : string) : String c a ++ b = String c (a ++ b).
Proof. reflexivity. Qed.

Lemma append_nil (b : string) : "" ++ b = b.
Proof. reflexivity. Qed.

Lemma prefix_rum_app (a b : string) :
  String.prefix "rum" (a ++ String " " b) = String.prefix "rum" a.
Proof.
  destruct a as [|c1 [|c2 [|c3 a]]];
    rewrite ?append_cons, ?append_nil, ?prefix_cons, ?prefix_empty;
    repeat match goal with
           | |- context [Ascii.eqb ?x ?y] => is_var y; destruct (Ascii.eqb x y)
           end; reflexivity.
Qed.

Lemma contains_rum_app (a b : string) :
  contains "rum" (a ++ String " " b) = contains "rum" a || contains "rum" b.
Proof.
  induction a as [|c a IH].
  - reflexivity.
  - rewrite append_cons. cbn [contains]. rewrite IH.
    rewrite <- append_cons, prefix_rum_app. apply orb_assoc.
Qed.

(** A "rum" in the joined names lies inside one name. *)
Lemma contains_rum_join (names : list string) :
  contains "rum" (join " " names) = existsb (contains "rum") names.
Proof.
  unfold join. induction names as [|x [|y names] IH].
  - reflexivity.
  - cbn [String.concat existsb]. rewrite orb_false_r. reflexivity.
  - change (String.concat " " (x :: y :: names))
      with (x ++ String " " (String.concat " " (y :: names))).
    rewrite contains_rum_app, IH. reflexivity.
Qed.

Lemma ingredient_name_ok (v : pyval) (name : string) :
  ingredient_name v = Ok name -> wf_ingredient v = true /\ name = name_of v.
Proof.
  destruct (wf_ingredient v) eqn:Hwf.
  - rewrite (ingredient_name_wf v Hwf). intros [= <-]. auto.
  - rewrite (ingredient_name_malformed v Hwf). discriminate.
Qed.

Lemma comprehension_names_ok (items : list pyval) :
  forall names,
    comprehension ingredient_name items = Ok names ->
    forallb wf_ingredient items = true /\ names = map name_of items.
Proof.
  induction items as [|v items IH]; intros names Hrun.
  - injection Hrun as <-. auto.
  - cbn [comprehension] in Hrun.
    destruct (ingredient_name v) as [name|e] eqn:Ev; [|discriminate].
    cbn [bind] in Hrun.
    destruct (comprehension ingredient_name items) as [rest|e]; [|discriminate].
    cbn [bind] in Hrun. injection Hrun as <-.
    apply ingredient_name_ok in Ev as [Hv ->].
    destruct (IH rest eq_refl) as [Hitems ->].
    split; [|reflexivity]. cbn [forallb]. rewrite Hv, Hitems. reflexivity.
Qed.

(** What a derivation that returns has computed. *)
Lemma derive_ok (d : gmap string pyval) (f : derived) :
  derive d = Ok f ->
  exists items names,
    iter (default (VList []) (d !! "ingredients")) = Ok items
    /\ comprehension ingredient_name items = Ok names
    /\ is_alcoholic f = contains "rum" (join " " names)
    /\ len (default (VList []) (d !! "ingredients")) = Ok (ingredient_count f)
    /\ calculate_complexity_score (default (VList []) (d !! "ingredients"))
       = Ok (complexity_score f)
    /\ identify_spirit_type (default (VList []) (d !! "ingredients")) = Ok (spirit_type f)
    /\ estimate_calories (default (VList []) (d !! "ingredients"))
       = Ok (estimated_calories f)
    /\ estimate_prep_time (default (VList []) (d !! "ingredients"))
         (default (VStr "") (d !! "instructions")) = Ok (estimated_prep_time f)
    /\ generate_tags (VDict d) = Ok (tags f).
Proof.
  unfold derive. intros Hrun.
  destruct (len _) as [n|e] eqn:En; [|discriminate]. cbn [bind] in Hrun.
  destruct (calculate_complexity_score _) as [score|e] eqn:Escore; [|discriminate].
  cbn [bind] in Hrun.
  destruct (match default (VStr "") (d !! "instructions") with
            | VStr text => Ok (split text) | _ => Raise AttributeError end)
    as [words|e]; [|discriminate]. cbn [bind] in Hrun.
  destruct (estimate_prep_time _ _) as [minutes|e] eqn:Eminutes; [|discriminate].
  cbn [bind] in Hrun.
  destruct (iter _) as [items|e] eqn:Eitems; [|discriminate]. cbn [bind] in Hrun.
  destruct (comprehension ingredient_name items) as [names|e] eqn:Enames;
    [|discriminate].
  cbn [bind] in Hrun.
  destruct (identify_spirit_type _) as [spirit|e] eqn:Espirit; [|discriminate].
  cbn [bind] in Hrun.
  destruct (estimate_calories _) as [calories|e] eqn:Ecalories; [|discriminate].
  cbn [bind] in Hrun.
  destruct (generate_tags _) as [labels|e] eqn:Elabels; [|discriminate].
  cbn [bind] in Hrun.
  injection Hrun as <-. exists items, names.
  cbn [is_alcoholic ingredient_count complexity_score spirit_type estimated_calories
         estimated_prep_time tags].
  repeat split; assumption || reflexivity.
Qed.

(** The enricher that returns has derived and attached. *)
Lemma enrich_single_cocktail_ok (w : world) (l l' : loc) (d : gmap string pyval)
    (h : gmap loc pyval) (t : nat) (st' : state) :
  h !! l = Some (VDict d) ->
  enrich_single_cocktail w l (mkState h t) = (Ok l', st') ->
  exists f,
    derive d = Ok f
    /\ heap st' !! l' = Some (VDict (attach (isoformat w t) f d)).
Proof.
  intros Hl Hrun. pose proof (enrich_single_cocktail_dict w l d h t Hl) as Hspec.
  destruct (derive d) as [f|e].
  - rewrite Hrun in Hspec. injection Hspec as -> ->. exists f. split; [reflexivity|].
    cbn [heap]. apply lookup_insert_eq.
  - destruct Hspec as (e' & t' & Hspec). rewrite Hrun in Hspec. discriminate.
Qed.

(** X11. The alcoholic flag of an enriched record is true exactly when
    the lowercased name of some ingredient contains "rum"; whenever it
    is true the spirit type is "vodka", "gin" or "rum". *)
Theorem is_alcoholic_is_rum (w : world) (l l' : loc) (d : gmap string pyval)
    (items : list pyval) (h : gmap loc pyval) (t : nat) (st' : state) :
  h !! l = Some (VDict d) ->
  default (VList []) (d !! "ingredients") = VList items ->
  enrich_single_cocktail w l (mkState h t) = (Ok l', st') ->
  exists e flag spirit,
    heap st' !! l' = Some (VDict e)
    /\ e !! "is_alcoholic" = Some (VBool flag)
    /\ e !! "spirit_type" = Some (VStr spirit)
    /\ (flag = true <-> exists v, In v items /\ contains "rum" (name_of v) = true)
    /\ (flag = true -> spirit = "vodka" \/ spirit = "gin" \/ spirit = "rum").
Proof.
  intros Hl Hitems Hrun.
  destruct (enrich_single_cocktail_ok w l l' d h t st' Hl Hrun) as (f & Ef & Hnew).
  destruct (derive_ok d f Ef)
    as (items' & names & Eiter & Enames & Eflag & _ & _ & Espirit & _).
  rewrite Hitems in Eiter, Espirit. injection Eiter as <-.
  destruct (comprehension_names_ok items names Enames) as [Hwf ->].
  rewrite contains_rum_join in Eflag.
  destruct (attach_derived (isoformat w t) f d) as (_ & _ & _ & _ & _ & A5 & A6 & _).
  exists (attach (isoformat w t) f d), (is_alcoholic f), (spirit_type f).
  split; [exact Hnew|]. split; [exact A5|]. split; [exact A6|].
  assert (Hflag : is_alcoholic f = true
                  <-> exists v, In v items /\ contains "rum" (name_of v) = true).
  { rewrite Eflag, existsb_exists. split.
    - intros (name & Hin & Hrum). apply in_map_iff in Hin as (v & <- & Hin). eauto.
    - intros (v & Hin & Hrum). exists (name_of v). split; [|exact Hrum].
      apply in_map_iff. eauto. }
  split; [exact Hflag|]. intros Htrue. apply Hflag in Htrue as (v & Hin & Hrum).
  assert (Hhit : hit ["rum"; "bacardi"; "havana club"] items).
  { exists v. split; [exact Hin|]. cbn [any_in existsb]. rewrite Hrum. reflexivity. }
  destruct (scan_spirits_first spirit_map items Hwf)
    as (spirit & Escan & [[_ Hnone]|(i & kws & Hi & _ & Hbefore)]).
  - exfalso. exact (Hnone 2%nat "rum" _ eq_refl Hhit).
  - change (identify_spirit_type (VList items)) with (scan_spirits spirit_map items)
      in Espirit.
    rewrite Escan in Espirit. injection Espirit as <-.
    destruct i as [|[|[|i]]].
    + injection Hi as <- _. auto.
    + injection Hi as <- _. auto.
    + injection Hi as <- _. auto.
    + exfalso. apply (Hbefore 2%nat "rum" _ ltac:(lia) eq_refl Hhit).
Qed.

Lemma is_alcoholic_is_rum_witness :
  exists l' st' e,
    enrich_single_cocktail (calm_world VNone) 1%positive
      (mkState {[ 1%positive := VDict mojito ]} 0) = (Ok l', st')
    /\ heap st' !! l' = Some (VDict e)
    /\ e !! "is_alcoholic" = Some (VBool true).
Proof.
  assert (Hl : ({[ 1%positive := VDict mojito ]} : gmap loc pyval) !! 1%positive
               = Some (VDict mojito)) by (vm_compute; reflexivity).
  assert (Hitems : exists items, default (VList []) (mojito !! "ingredients") = VList items
                                 /\ exists v, In v items
                                              /\ contains "rum" (name_of v) = true).
  { eexists. split; [vm_compute; reflexivity|].
    eexists. split; [left; reflexivity|]. vm_compute. reflexivity. }
  destruct Hitems as (items & Hitems & Hrum).
  assert (Hrun : exists l' st',
             enrich_single_cocktail (calm_world VNone) 1%positive
               (mkState {[ 1%positive := VDict mojito ]} 0) = (Ok l', st'))
    by (vm_compute; eexists _, _; reflexivity).
  destruct Hrun as (l' & st' & Hrun).
  destruct (is_alcoholic_is_rum (calm_world VNone) 1%positive l' mojito items _ 0%nat st'
              Hl Hitems Hrun)
    as (e & flag & spirit & Hnew & Hflag & _ & Hiff & _).
  exists l', st', e. split; [exact Hrun|]. split; [exact Hnew|].
  rewrite Hflag. do 2 f_equal. apply Hiff, Hrum.
Defined.

(** ** More on the tags *)

Lemma generate_tags_ok (d : gmap string pyval) (labels : list string) :
  generate_tags (VDict d) = Ok labels ->
  exists category glass spirit instructions score,
    py_lower (default (VStr "") (d !! "category")) = Ok category
    /\ py_lower (default (VStr "") (d !! "glass")) = Ok glass
    /\ identify_spirit_type (default (VList []) (d !! "ingredients")) = Ok spirit
    /\ py_lower (default (VStr "") (d !! "instructions")) = Ok instructions
    /\ calculate_complexity_score (default (VList []) (d !! "ingredients")) = Ok score
    /\ labels
       = dedupe (collected_tags category glass spirit instructions (complexity_tag score)).
Proof.
  unfold generate_tags, get. cbn [bind]. intros Hrun.
  destruct (py_lower (default (VStr "") (d !! "category"))) as [category|e];
    [|discriminate]. cbn [bind] in Hrun.
  destruct (py_lower (default (VStr "") (d !! "glass"))) as [glass|e];
    [|discriminate]. cbn [bind] in Hrun.
  destruct (identify_spirit_type _) as [spirit|e]; [|discriminate]. cbn [bind] in Hrun.
  destruct (py_lower (default (VStr "") (d !! "instructions"))) as [instructions|e];
    [|discriminate]. cbn [bind] in Hrun.
  destruct (calculate_complexity_score _) as [score|e]; [|discriminate].
  cbn [bind] in Hrun. injection Hrun as <-.
  exists category, glass, spirit, instructions, score. repeat split; reflexivity.
Qed.

Lemma elem_of_push_if_iff (b : bool) (tags : list string) (x t : string) :
  t ∈ (if b then (tags ++ [x])%list else tags) <-> t ∈ tags \/ (b = true /\ t = x).
Proof.
  destruct b.
  - rewrite elem_of_app, list_elem_of_singleton. tauto.
  - split; [auto|]. intros [H|[H _]]; [exact H|discriminate].
Qed.

Lemma elem_of_push_unless_iff (b : bool) (tags : list string) (x t : string) :
  t ∈ (if b then tags else (tags ++ [x])%list) <-> t ∈ tags \/ (b = false /\ t = x).
Proof.
  destruct b.
  - split; [auto|]. intros [H|[H _]]; [exact H|discriminate].
  - rewrite elem_of_app, list_elem_of_singleton. tauto.
Qed.

Lemma elem_of_collected_tags (category glass spirit instructions level t : string) :
  t ∈ collected_tags category glass spirit instructions level
  <-> (t = category /\ category <> "")
      \/ (t = glass /\ glass <> "")
      \/ (t = spirit /\ spirit <> "non-alcoholic")
      \/ (t = "shaken" /\ contains "shake" instructions = true)
      \/ (t = "stirred" /\ contains "stir" instructions = true)
      \/ (t = "muddled" /\ contains "muddle" instructions = true)
      \/ t = level.
Proof.
  unfold collected_tags. rewrite elem_of_app, list_elem_of_singleton.
  rewrite !elem_of_push_if_iff, !elem_of_push_unless_iff, elem_of_nil.
  rewrite !String.eqb_neq. tauto.
Qed.

Lemma lower_ascii_idempotent (c : ascii) : lower_ascii (lower_ascii c) = lower_ascii c.
Proof. destruct c as [[] [] [] [] [] [] [] []]; reflexivity. Qed.

Lemma lower_idempotent (s : string) : lower (lower s) = lower s.
Proof.
  induction s as [|c s IH]; [reflexivity|].
  cbn [lower]. rewrite lower_ascii_idempotent, IH. reflexivity.
Qed.

Lemma complexity_tag_level (score : float) :
  complexity_tag score = "simple" \/ complexity_tag score = "intermediate"
  \/ complexity_tag score = "complex".
Proof.
  unfold complexity_tag.
  destruct (fltb score (float_of_Z 3)); [auto|].
  destruct (fltb score (float_of_Z 6)); auto.
Qed.

(** X12. The tags of a well-formed recipe are exactly: the lowercased
    category and glass when they are not empty, the spirit type when it
    is not "non-alcoholic", "shaken", "stirred" and "muddled" when the
    lowercased instructions contain "shake", "stir" and "muddle", and
    the complexity level.  No tag is the empty string and every tag is
    in lower case. *)
Theorem generate_tags_members (d : gmap string pyval) :
  wf_recipe d = true ->
  exists labels spirit score,
    generate_tags (VDict d) = Ok labels
    /\ identify_spirit_type (default (VList []) (d !! "ingredients")) = Ok spirit
    /\ calculate_complexity_score (default (VList []) (d !! "ingredients")) = Ok score
    /\ (forall t,
          t ∈ labels
          <-> (t = lower (text_of (d !! "category")) /\ t <> "")
              \/ (t = lower (text_of (d !! "glass")) /\ t <> "")
              \/ (t = spirit /\ spirit <> "non-alcoholic")
              \/ (t = "shaken"
                  /\ contains "shake" (lower (text_of (d !! "instructions"))) = true)
              \/ (t = "stirred"
                  /\ contains "stir" (lower (text_of (d !! "instructions"))) = true)
              \/ (t = "muddled"
                  /\ contains "muddle" (lower (text_of (d !! "instructions"))) = true)
              \/ t = complexity_tag score)
    /\ (forall t, t ∈ labels -> t <> "" /\ lower t = t).
Proof.
  intros Hwf. destruct (generate_tags_total d Hwf) as (labels & Erun).
  destruct (generate_tags_ok d labels Erun)
    as (category & glass & spirit & instructions & score
        & Ec & Eg & Espirit & Ei & Escore & ->).
  apply wf_recipe_fields in Hwf as (Hi & Ht & Hc & Hg).
  rewrite (text_field _ Hc) in Ec. injection Ec as <-.
  rewrite (text_field _ Hg) in Eg. injection Eg as <-.
  rewrite (text_field _ Ht) in Ei. injection Ei as <-.
  assert (Hmem : forall t,
             t ∈ dedupe (collected_tags (lower (text_of (d !! "category")))
                           (lower (text_of (d !! "glass"))) spirit
                           (lower (text_of (d !! "instructions")))
                           (complexity_tag score))
             <-> (t = lower (text_of (d !! "category")) /\ t <> "")
                 \/ (t = lower (text_of (d !! "glass")) /\ t <> "")
                 \/ (t = spirit /\ spirit <> "non-alcoholic")
                 \/ (t = "shaken"
                     /\ contains "shake" (lower (text_of (d !! "instructions"))) = true)
                 \/ (t = "stirred"
                     /\ contains "stir" (lower (text_of (d !! "instructions"))) = true)
                 \/ (t = "muddled"
                     /\ contains "muddle" (lower (text_of (d !! "instructions"))) = true)
                 \/ t = complexity_tag score).
  { intros t. rewrite elem_of_dedupe, elem_of_collected_tags.
    split; intros H; intuition (subst; auto 10). }
  eexists. exists spirit, score. split; [exact Erun|]. split; [exact Espirit|].
  split; [exact Escore|]. split; [exact Hmem|].
  destruct (ingredients_field _ Hi) as (items & Eitems & Hitems).
  destruct (spirit_in_table items Hitems) as (spirit' & Espirit' & Hspirit).
  rewrite Eitems, Espirit' in Espirit. injection Espirit as <-.
  intros t Hin. apply Hmem in Hin.
  destruct Hin as [[-> Hne]|[[-> Hne]|[[-> Hne]|[[-> _]|[[-> _]|[[-> _]| ->]]]]]].
  - split; [exact Hne|apply lower_idempotent].
  - split; [exact Hne|apply lower_idempotent].
  - destruct Hspirit as [->|Hspirit]; [congruence|].
    apply spirit_names_inv in Hspirit.
    destruct Hspirit as [->|[->|[->|[->|[->| ->]]]]]; split; discriminate || reflexivity.
  - split; discriminate || reflexivity.
  - split; discriminate || reflexivity.
  - split; discriminate || reflexivity.
  - destruct (complexity_tag_level score) as [->|[->| ->]];
      split; discriminate || reflexivity.
Qed.

Lemma generate_tags_members_witness :
  exists labels, generate_tags (VDict mojito) = Ok labels /\ "muddled" ∈ labels.
Proof.
  assert (Hwf : wf_recipe mojito = true) by (vm_compute; reflexivity).
  destruct (generate_tags_members mojito Hwf) as (labels & spirit & score & E & _ & _ & Hmem & _).
  exists labels. split; [exact E|]. apply Hmem.
  do 5 right. left. split; [reflexivity|]. vm_compute. reflexivity.
Defined.

(** X13. The tags of an enriched record agree with its other derived
    fields: they contain the level of the record's own complexity score
    and, when the spirit type is not "non-alcoholic", the spirit type;
    they are without duplicates. *)
Theorem enriched_tags_consistent (w : world) (l l' : loc) (d : gmap string pyval)
    (h : gmap loc pyval) (t : nat) (st' : state) :
  h !! l = Some (VDict d) ->
  enrich_single_cocktail w l (mkState h t) = (Ok l', st') ->
  exists e score spirit labels,
    heap st' !! l' = Some (VDict e)
    /\ e !! "complexity_score" = Some (VFloat score)
    /\ e !! "spirit_type" = Some (VStr spirit)
    /\ e !! "tags" = Some (VList (VStr <$> labels))
    /\ NoDup labels
    /\ complexity_tag score ∈ labels
    /\ (spirit <> "non-alcoholic" -> spirit ∈ labels).
Proof.
  intros Hl Hrun.
  destruct (enrich_single_cocktail_ok w l l' d h t st' Hl Hrun) as (f & Ef & Hnew).
  destruct (derive_ok d f Ef)
    as (items & names & _ & _ & _ & _ & Escore & Espirit & _ & _ & Etags).
  destruct (generate_tags_ok d (tags f) Etags)
    as (category & glass & spirit & instructions & score
        & _ & _ & Espirit' & _ & Escore' & Elabels).
  rewrite Escore in Escore'. injection Escore' as <-.
  rewrite Espirit in Espirit'. injection Espirit' as <-.
  destruct (attach_derived (isoformat w t) f d) as (_ & _ & A2 & _ & _ & _ & A6 & _ & A8).
  exists (attach (isoformat w t) f d), (complexity_score f), (spirit_type f), (tags f).
  split; [exact Hnew|]. split; [exact A2|]. split; [exact A6|]. split; [exact A8|].
  rewrite Elabels. split; [unfold dedupe; apply NoDup_elements|].
  split; [|intros Hne]; apply elem_of_dedupe, elem_of_collected_tags; auto 10.
Qed.

Lemma enriched_tags_consistent_witness :
  exists l' st' e labels,
    enrich_single_cocktail (calm_world VNone) 1%positive
      (mkState {[ 1%positive := VDict daiquiri ]} 0) = (Ok l', st')
    /\ heap st' !! l' = Some (VDict e)
    /\ e !! "tags" = Some (VList (VStr <$> labels))
    /\ NoDup labels.
Proof.
  assert (Hl : ({[ 1%positive := VDict daiquiri ]} : gmap loc pyval) !! 1%positive
               = Some (VDict daiquiri)) by (vm_compute; reflexivity).
  assert (Hrun : exists l' st',
             enrich_single_cocktail (calm_world VNone) 1%positive
               (mkState {[ 1%positive := VDict daiquiri ]} 0) = (Ok l', st'))
    by (vm_compute; eexists _, _; reflexivity).
  destruct Hrun as (l' & st' & Hrun).
  destruct (enriched_tags_consistent (calm_world VNone) 1%positive l' daiquiri _ 0%nat st'
              Hl Hrun)
    as (e & score & spirit & labels & Hnew & _ & _ & Htags & Hnodup & _).
  exists l', st', e, labels. auto.
Defined.

(** ** Records without ingredients *)

Lemma derive_no_ingredients (d : gmap string pyval) :
  default (VList []) (d !! "ingredients") = VList [] ->
  is_text (d !! "instructions") = true ->
  is_text (d !! "category") = true ->
  is_text (d !! "glass") = true ->
  exists words minutes labels,
    derive d = Ok (mkDerived 0 f_zero words minutes false "non-alcoholic" 0 labels)
    /\ "simple" ∈ labels.
Proof.
  intros Hi Ht Hc Hg. unfold derive, generate_tags, get. cbn [bind].
  rewrite Hi, (text_default _ Ht), (text_field _ Hc), (text_field _ Hg).
  cbn [bind len length py_lower].
  evaluate (calculate_complexity_score (VList [])). cbn [bind estimate_prep_time].
  evaluate (iter (VList [])). cbn [bind comprehension].
  evaluate (identify_spirit_type (VList [])). cbn [bind].
  evaluate (estimate_calories (VList [])). cbn [bind].
  evaluate ("non-alcoholic" =? "non-alcoholic")%string.
  evaluate (complexity_tag (S754_zero false)).
  evaluate (contains "rum" (join " " [])).
  eexists _, _, _. split; [reflexivity|].
  apply elem_of_dedupe, elem_of_app. right. apply list_elem_of_singleton. reflexivity.
Qed.

(** X14. A record without ingredients (the field absent, or an empty
    list) is enriched with 0 ingredients, the complexity score 0.0, 0
    calories, the spirit type "non-alcoholic", a false alcoholic flag
    and the tag "simple". *)
Theorem enrich_no_ingredients (w : world) (l : loc) (d : gmap string pyval)
    (h : gmap loc pyval) (t : nat) :
  h !! l = Some (VDict d) ->
  default (VList []) (d !! "ingredients") = VList [] ->
  is_text (d !! "instructions") = true ->
  is_text (d !! "category") = true ->
  is_text (d !! "glass") = true ->
  exists l' st' e labels,
    enrich_single_cocktail w l (mkState h t) = (Ok l', st')
    /\ heap st' !! l' = Some (VDict e)
    /\ e !! "ingredient_count" = Some (VInt 0)
    /\ e !! "complexity_score" = Some (VFloat f_zero)
    /\ e !! "estimated_calories" = Some (VInt 0)
    /\ e !! "spirit_type" = Some (VStr "non-alcoholic")
    /\ e !! "is_alcoholic" = Some (VBool false)
    /\ e !! "tags" = Some (VList (VStr <$> labels))
    /\ "simple" ∈ labels.
Proof.
  intros Hl Hi Ht Hc Hg.
  pose proof (enrich_single_cocktail_dict w l d h t Hl) as Hrun.
  destruct (derive_no_ingredients d Hi Ht Hc Hg) as (words & minutes & labels & Ef & Hsimple).
  rewrite Ef in Hrun.
  destruct (attach_derived (isoformat w t)
              (mkDerived 0 f_zero words minutes false "non-alcoholic" 0 labels) d)
    as (_ & A1 & A2 & _ & _ & A5 & A6 & A7 & A8).
  eexists _, _, _, labels. split; [exact Hrun|]. cbn [heap].
  split; [apply lookup_insert_eq|]. auto 10.
Qed.

Lemma enrich_no_ingredients_witness :
  exists l' st' e,
    enrich_single_cocktail (calm_world VNone) 1%positive
      (mkState {[ 1%positive := VDict virgin_note ]} 0) = (Ok l', st')
    /\ heap st' !! l' = Some (VDict e)
    /\ e !! "spirit_type" = Some (VStr "non-alcoholic").
Proof.
  assert (Hl : ({[ 1%positive := VDict virgin_note ]} : gmap loc pyval) !! 1%positive
               = Some (VDict virgin_note)) by (vm_compute; reflexivity).
  assert (Hi : default (VList []) (virgin_note !! "ingredients") = VList [])
    by (vm_compute; reflexivity).
  assert (Ht : is_text (virgin_note !! "instructions") = true) by (vm_compute; reflexivity).
  assert (Hc : is_text (virgin_note !! "category") = true) by (vm_compute; reflexivity).
  assert (Hg : is_text (virgin_note !! "glass") = true) by (vm_compute; reflexivity).
  destruct (enrich_no_ingredients (calm_world VNone) 1%positive virgin_note _ 0%nat
              Hl Hi Ht Hc Hg)
    as (l' & st' & e & labels & Hrun & Hnew & _ & _ & _ & Hspirit & _).
  exists l', st', e. auto.
Defined.

(** ** Letter case *)

Lemma lowercased_name (v : pyval) :
  wf_ingredient v = true -> ingredient_name (lowercased v) = ingredient_name v.
Proof.
  intros Hwf. rewrite (ingredient_name_wf v Hwf).
  destruct v as [| | | | | |d]; try discriminate.
  unfold lowercased, ingredient_name, get. cbn [bind].
  rewrite lookup_insert_eq. cbn [default from_option id py_lower name_of].
  rewrite lower_idempotent. reflexivity.
Qed.

Lemma lowercased_amount (v : pyval) (fallback : pyval) :
  get (lowercased v) "amount" fallback = get v "amount" fallback.
Proof.
  destruct v as [| | | | | |d]; try reflexivity.
  unfold lowercased, get. rewrite lookup_insert_ne by discriminate. reflexivity.
Qed.

Lemma for_each_lowercased {S : Type} (body : S -> pyval -> result S) (items : list pyval) :
  (forall acc v, wf_ingredient v = true -> body acc (lowercased v) = body acc v) ->
  forallb wf_ingredient items = true ->
  forall acc, for_each body (lowercased <$> items) acc = for_each body items acc.
Proof.
  intros Hbody. induction items as [|v items IH]; intros Hwf acc; [reflexivity|].
  apply forallb_cons_inv in Hwf as [Hv Hitems].
  cbn [fmap list_fmap for_each]. rewrite (Hbody acc v Hv).
  destruct (body acc v) as [acc'|e]; [|reflexivity]. cbn [bind]. exact (IH Hitems acc').
Qed.

Lemma scan_ingredients_lowercased (keywords : list string) (items : list pyval) :
  forallb wf_ingredient items = true ->
  scan_ingredients keywords (lowercased <$> items) = scan_ingredients keywords items.
Proof.
  induction items as [|v items IH]; intros Hwf; [reflexivity|].
  apply forallb_cons_inv in Hwf as [Hv Hitems].
  cbn [fmap list_fmap scan_ingredients]. rewrite (lowercased_name v Hv).
  destruct (ingredient_name v) as [name|e]; [|reflexivity]. cbn [bind].
  destruct (any_in keywords name); [reflexivity|]. exact (IH Hitems).
Qed.

Lemma scan_spirits_lowercased (table : list (string * list string)) (items : list pyval) :
  forallb wf_ingredient items = true ->
  scan_spirits table (lowercased <$> items) = scan_spirits table items.
Proof.
  intros Hwf. induction table as [|[spirit keywords] table IH]; [reflexivity|].
  cbn [scan_spirits]. rewrite (scan_ingredients_lowercased keywords items Hwf), IH.
  reflexivity.
Qed.

Lemma count_lower (c : ascii) (s : string) :
  lower_ascii c = c -> (forall x, lower_ascii x = c -> x = c) ->
  count c (lower s) = count c s.
Proof.
  intros Hc Honly. induction s as [|x s IH]; [reflexivity|].
  cbn [lower count]. rewrite IH. f_equal.
  destruct (Ascii.eqb c (lower_ascii x)) eqn:E1, (Ascii.eqb c x) eqn:E2; try reflexivity.
  - apply Ascii.eqb_eq in E1. symmetry in E1. apply Honly in E1.
    subst x. rewrite Ascii.eqb_refl in E2. discriminate.
  - apply Ascii.eqb_eq in E2. subst x. rewrite Hc, Ascii.eqb_refl in E1. discriminate.
Qed.

Lemma only_dot_lowers_to_dot (x : ascii) : lower_ascii x = "."%char -> x = "."%char.
Proof. destruct x as [[] [] [] [] [] [] [] []]; vm_compute; congruence. Qed.

Lemma only_semicolon_lowers_to_semicolon (x : ascii) :
  lower_ascii x = ";"%char -> x = ";"%char.
Proof. destruct x as [[] [] [] [] [] [] [] []]; vm_compute; congruence. Qed.

(** X15. The derivers ignore letter case: putting the names of the
    ingredients in lower case changes neither the complexity score, nor
    the spirit type, nor the calorie estimate, and putting the
    instructions in lower case does not change the preparation time. *)
Theorem derivers_ignore_case (items : list pyval) (ingredients : pyval) (text : string) :
  forallb wf_ingredient items = true ->
  calculate_complexity_score (VList (lowercased <$> items))
  = calculate_complexity_score (VList items)
  /\ identify_spirit_type (VList (lowercased <$> items))
     = identify_spirit_type (VList items)
  /\ estimate_calories (VList (lowercased <$> items)) = estimate_calories (VList items)
  /\ estimate_prep_time ingredients (VStr (lower text))
     = estimate_prep_time ingredients (VStr text).
Proof.
  intros Hwf. split; [|split; [|split]].
  - unfold calculate_complexity_score, len, iter. cbn [bind]. rewrite length_fmap.
    rewrite (for_each_lowercased (add_bonus specialty_ingredients f_one) items);
      [|intros acc v Hv; unfold add_bonus; rewrite (lowercased_name v Hv); reflexivity
       |exact Hwf].
    destruct (for_each (add_bonus specialty_ingredients f_one) items _) as [s|e];
      [|reflexivity]. cbn [bind].
    rewrite (for_each_lowercased (add_bonus fresh_indicators f_half) items);
      [reflexivity
      |intros acc v Hv; unfold add_bonus; rewrite (lowercased_name v Hv); reflexivity
      |exact Hwf].
  - unfold identify_spirit_type, iter. cbn [bind].
    apply scan_spirits_lowercased, Hwf.
  - unfold estimate_calories, iter. cbn [bind].
    apply for_each_lowercased; [|exact Hwf].
    intros acc v Hv. unfold add_calories.
    rewrite (lowercased_name v Hv), lowercased_amount. reflexivity.
  - unfold estimate_prep_time. rewrite lower_idempotent.
    rewrite (count_lower "." text eq_refl only_dot_lowers_to_dot).
    rewrite (count_lower ";" text eq_refl only_semicolon_lowers_to_semicolon).
    reflexivity.
Qed.

Lemma derivers_ignore_case_witness :
  identify_spirit_type (VList (lowercased <$> [VDict {[ "name" := VStr "TEQUILA Blanco" ]}]))
  = identify_spirit_type (VList [VDict {[ "name" := VStr "TEQUILA Blanco" ]}]).
Proof.
  assert (Hwf : forallb wf_ingredient [VDict {[ "name" := VStr "TEQUILA Blanco" ]}] = true)
    by (vm_compute; reflexivity).
  exact (proj1 (proj2 (derivers_ignore_case _ VNone "" Hwf))).
Defined.

(** ** Batch elements that are not records *)

(** X16. An element of the batch that is not a dictionary aborts the
    enricher before any field is derived: a list is copied and the
    assignment of the timestamp raises [TypeError]; any other value has
    no [copy] and raises [AttributeError].  Nothing that was in the
    store is changed. *)
Theorem enrich_single_cocktail_not_a_record (w : world) (l : loc) (v : pyval)
    (h : gmap loc pyval) (t : nat) :
  h !! l = Some v ->
  (forall d, v <> VDict d) ->
  let outcome := enrich_single_cocktail w l (mkState h t) in
  outcome.1 = Raise (match v with VList _ => TypeError | _ => AttributeError end)
  /\ h ⊆ heap outcome.2.
Proof.
  intros Hl Hv outcome. subst outcome.
  unfold enrich_single_cocktail, bindM at 1 2 3. unfold copy, bindM, deref.
  cbn [heap]. rewrite Hl.
  destruct v as [| | | | |items|d]; try (split; reflexivity).
  - unfold alloc, datetime_now, setitem, bindM, deref, raise. cbn [heap ticks].
    rewrite lookup_insert_eq. cbn [fst snd heap]. split; [reflexivity|].
    apply insert_fresh_subseteq.
  - exfalso. exact (Hv d eq_refl).
Qed.

Lemma enrich_single_cocktail_not_a_record_witness :
  (enrich_single_cocktail (calm_world VNone) 1%positive
     (mkState {[ 1%positive := VList [VStr "Mojito"] ]} 0)).1 = Raise TypeError
  /\ (enrich_single_cocktail (calm_world VNone) 1%positive
        (mkState {[ 1%positive := VStr "Mojito" ]} 0)).1 = Raise AttributeError.
Proof.
  assert (H1 : ({[ 1%positive := VList [VStr "Mojito"] ]} : gmap loc pyval) !! 1%positive
               = Some (VList [VStr "Mojito"])) by (vm_compute; reflexivity).
  assert (H2 : ({[ 1%positive := VStr "Mojito" ]} : gmap loc pyval) !! 1%positive
               = Some (VStr "Mojito")) by (vm_compute; reflexivity).
  split.
  - exact (proj1 (enrich_single_cocktail_not_a_record (calm_world VNone) 1%positive
                    (VList [VStr "Mojito"]) _ 0%nat H1 ltac:(discriminate))).
  - exact (proj1 (enrich_single_cocktail_not_a_record (calm_world VNone) 1%positive
                    (VStr "Mojito") _ 0%nat H2 ltac:(discriminate))).
Defined.

(** ** More on the preparation time *)

Lemma lower_app (a b : string) : lower (a ++ b) = lower a ++ lower b.
Proof.
  induction a as [|c a IH]; [reflexivity|].
  rewrite append_cons. cbn [lower]. rewrite IH. reflexivity.
Qed.

Lemma count_app (c : ascii) (a b : string) : count c (a ++ b) = (count c a + count c b)%Z.
Proof.
  induction a as [|x a IH]; [reflexivity|].
  rewrite append_cons. cbn [count]. rewrite IH. lia.
Qed.

Lemma count_nonneg (c : ascii) (s : string) : (0 <= count c s)%Z.
Proof. induction s as [|x s IH]; cbn [count]; [lia|]. destruct (Ascii.eqb c x); lia. Qed.

Lemma prefix_app_l (p a b : string) :
  String.prefix p a = true -> String.prefix p (a ++ b) = true.
Proof.
  revert a. induction p as [|x p IH]; intros a H; [apply prefix_empty|].
  destruct a as [|y a]; [discriminate|].
  rewrite append_cons, prefix_cons in *.
  apply andb_true_iff in H as [-> H]. exact (IH a H).
Qed.

Lemma contains_app_l (p a b : string) :
  contains p a = true -> contains p (a ++ b) = true.
Proof.
  induction a as [|x a IH]; intros H.
  - cbn [contains] in H. rewrite orb_false_r in H.
    destruct p; [|discriminate]. rewrite append_nil.
    destruct b; cbn [contains]; rewrite prefix_empty; reflexivity.
  - cbn [contains] in H. apply orb_true_iff in H as [H|H].
    + apply (prefix_app_l p (String x a) b) in H. rewrite append_cons in *.
      cbn [contains]. rewrite H. reflexivity.
    + rewrite append_cons. cbn [contains]. rewrite (IH H). apply orb_true_r.
Qed.

Lemma contains_app_r (p a b : string) :
  contains p b = true -> contains p (a ++ b) = true.
Proof.
  intros H. induction a as [|x a IH]; [exact H|].
  rewrite append_cons. cbn [contains]. rewrite IH. apply orb_true_r.
Qed.

Lemma estimate_prep_time_eq (ingredients : pyval) (text : string) :
  estimate_prep_time ingredients (VStr text)
  = Ok (prep_time_of (contains "muddle" (lower text)) (contains "shake" (lower text))
          (count "." text + count ";" text)).
Proof.
  unfold estimate_prep_time, prep_time_of.
  destruct (contains "muddle" (lower text)), (contains "shake" (lower text)); reflexivity.
Qed.

Lemma prep_time_of_mono (m1 s1 m2 s2 : bool) (k1 k2 : Z) :
  (m1 = true -> m2 = true) -> (s1 = true -> s2 = true) -> (k1 <= k2)%Z ->
  (prep_time_of m1 s1 k1 <= prep_time_of m2 s2 k2)%Z.
Proof.
  intros Hm Hs Hk. unfold prep_time_of.
  destruct m1, m2, s1, s2; try (specialize (Hm eq_refl)); try (specialize (Hs eq_refl));
    try discriminate; lia.
Qed.

(** X17. Text added before or after the instructions never shortens the
    estimated preparation time. *)
Theorem estimate_prep_time_monotone (ingredients : pyval) (before text after : string) :
  exists minutes longer,
    estimate_prep_time ingredients (VStr text) = Ok minutes
    /\ estimate_prep_time ingredients (VStr (before ++ text ++ after)) = Ok longer
    /\ (minutes <= longer)%Z.
Proof.
  rewrite !estimate_prep_time_eq. eexists _, _. split; [reflexivity|].
  split; [reflexivity|].
  apply prep_time_of_mono.
  - intros H. rewrite !lower_app. apply contains_app_r, contains_app_l, H.
  - intros H. rewrite !lower_app. apply contains_app_r, contains_app_l, H.
  - rewrite !count_app.
    pose proof (count_nonneg "." before). pose proof (count_nonneg "." after).
    pose proof (count_nonneg ";" before). pose proof (count_nonneg ";" after). lia.
Qed.

(** ** Writing the collection *)

(** X18. [write_to_s3] hands S3 the records at the given locations, in
    order, under the given bucket and key; its outcome is the outcome
    of that write, and it does not change the store. *)
Theorem write_to_s3_body (w : world) (ls : list loc) (body : list pyval)
    (bucket key : string) (h : gmap loc pyval) (t : nat) :
  Forall2 (fun l v => h !! l = Some v) ls body ->
  write_to_s3 w ls bucket key (mkState h t)
  = (s3_put_object w bucket key body, mkState h t).
Proof.
  intros Hbody. unfold write_to_s3, bindM.
  rewrite (mapM_deref_all ls body h t Hbody). reflexivity.
Qed.

Lemma write_to_s3_body_witness :
  write_to_s3 (readonly_world VNone) [2%positive; 1%positive] "bucket" "key"
    (mkState two_summarised 0)
  = (Raise (ClientError "AccessDenied"), mkState two_summarised 0).
Proof.
  assert (Hbody : exists body,
             Forall2 (fun l v => two_summarised !! l = Some v) [2%positive; 1%positive] body).
  { eexists [_; _].
    constructor; [vm_compute; reflexivity|].
    constructor; [vm_compute; reflexivity|]. constructor. }
  destruct Hbody as (body & Hbody).
  rewrite (write_to_s3_body (readonly_world VNone) _ body "bucket" "key" _ 0 Hbody).
  reflexivity.
Defined.
